(** * An image-analysis gateway: model of the Express application

    The repository holds two revisions of one Express application:
    [src/proxy-server.js] (module [ProxyServer] below) and the later revision
    kept as [src/unnamed/part_000] (module [Gateway]).  Both accept a multipart
    upload on [POST /analyze], rebuild a multipart form, send it with a bearer
    token to one upstream service and map the outcome to an HTTP response.

    The handlers and the configuration objects are transcribed from the
    JavaScript.  The packages the application calls (axios, cors,
    express-rate-limit, multer, form-data) and Express itself are not part
    of the repository; what the application relies on from them is written
    down as small, explicitly marked contracts. *)

From stdpp Require Import gmap strings list pretty.
From Stdlib Require Import ZArith.
From Stdlib.Strings Require Import Byte Ascii.

Set Warnings "-register-all".

Local Open Scope string_scope.
Local Open Scope Z_scope.

(** ** JavaScript values *)

(** The values a handler passes to [res.json] or receives as
    [hfResponse.data]: opaque to the gateway, never inspected. *)
Inductive jsvalue : Type :=
  | JUndefined
  | JNull
  | JBool (b : bool)
  | JNum (bits : Z)                (* an IEEE-754 double, by its 64 bits *)
  | JStr (s : string)
  | JArr (items : list jsvalue)
  | JObj (fields : list (string * jsvalue)).

(** Property read [o.k] on an object built from a literal; no literal of the
    application repeats a key. *)
Fixpoint assoc (k : string) (fields : list (string * jsvalue)) : option jsvalue :=
  match fields with
  | [] => None
  | (k', v) :: rest => if String.eqb k k' then Some v else assoc k rest
  end.

Definition get_field (k : string) (v : jsvalue) : option jsvalue :=
  match v with
  | JObj fields => assoc k fields
  | _ => None
  end.

(** [process.env]: every variable that is set is a string. *)
Abbreviation Env := (gmap string string).

(** Truthiness of a possibly-undefined string ([!x], [if (x)], [x || y]):
    [undefined] and the empty string are falsy. *)
Definition truthy (x : option string) : bool :=
  match x with
  | Some s => negb (String.eqb s "")
  | None => false
  end.

(** [a || b] where [b] is a string: the first operand if truthy, else [b]. *)
Definition or_else (a : option string) (b : string) : string :=
  match a with
  | Some s => if truthy (Some s) then s else b
  | None => b
  end.

(** Interpolation [`${x}`] of a possibly-undefined string. *)
Definition interpolate (x : option string) : string :=
  match x with
  | Some s => s
  | None => "undefined"
  end.

(** [s.split(',')]: never empty, [''.split(',')] is [['']]. *)
Fixpoint split (sep : Ascii.ascii) (s : string) : list string :=
  match s with
  | EmptyString => [EmptyString]
  | String c rest =>
      if Ascii.eqb c sep then EmptyString :: split sep rest
      else match split sep rest with
           | w :: ws => String c w :: ws
           | [] => [String c EmptyString]
           end
  end.

(** [l.join(sep)] and [s.includes(c)], the inverse view of [split]. *)
Fixpoint join (sep : Ascii.ascii) (l : list string) : string :=
  match l with
  | [] => EmptyString
  | w :: rest =>
      match rest with
      | [] => w
      | _ :: _ => String.append w (String sep (join sep rest))
      end
  end.

Fixpoint mentions (c : Ascii.ascii) (s : string) : bool :=
  match s with
  | EmptyString => false
  | String c' rest => Ascii.eqb c' c || mentions c rest
  end.

(** [list.includes(x)] on strings (strict equality). *)
Definition includes (l : list string) (x : string) : bool :=
  existsb (String.eqb x) l.

(** ** Requests and responses *)

(** [req.file] as multer's memory storage leaves it. *)
Record File := {
  originalname : string;
  mimetype : string;
  buffer : list byte;
  size : Z
}.

(** A member of [req.body] as multer assembles it from the text parts: a
    string for a name sent once, an array for a repeated name, an array or
    an object for a bracketed name ([a[]], [a[0]], [a[k]]). *)
Inductive FieldValue : Type :=
  | FText (s : string)
  | FArray (items : list FieldValue)
  | FObject (members : list (string * FieldValue)).

(** The body of the inbound request.  A multipart body is given by its file
    parts that carry a file name (multer skips a file part without one), in
    order, each under its field name, and by what multer makes of the rest
    of the body: the [req.body] it assembles from the text parts, or the
    message of the error it raises (a malformed body, a name or a value over
    the package's limits).  Any other body is left alone by multer;
    [express.json], where registered, parses it or fails with an error
    (malformed or oversized JSON). *)
Inductive Content : Type :=
  | Multipart (files : list (string * File)) (fields : string + gmap string FieldValue)
  | NotMultipart (json_error : option string).

(** The inbound request as the middleware and the handler read it:
    [req.ip], [req.headers], the body as it arrives, and the two members
    that [upload.single('image')] sets before the handler runs, [req.file]
    and [req.body]. *)
Record Request := {
  ip : option string;
  headers : gmap string string;
  content : Content;
  file : option File;
  body : gmap string FieldValue
}.

Inductive Body : Type :=
  | JsonBody (v : jsvalue)      (* res.json(v) *)
  | TextBody (s : string)       (* res.send('...') *)
  | NoBody.                     (* nothing after the headers *)

Record Response := {
  statusCode : Z;
  payload : Body
}.

(** Statuses that go out without a body whatever the handler passes to
    [res.json]: 1xx, 204 and 304. *)
Definition bodiless (c : Z) : bool := (c <? 200) || (c =? 204) || (c =? 304).

(** [res.status(c).json(v)] as it leaves the server; a bare [res.json(v)]
    keeps Express's default status 200.  [JsonBody v] is the value that
    Express serialises into the body. *)
Definition res_status_json (c : Z) (v : jsvalue) : Response :=
  {| statusCode := c; payload := if bodiless c then NoBody else JsonBody v |}.

Definition res_json (v : jsvalue) : Response := res_status_json 200 v.

(** A response body is a JSON object with an [error] member. *)
Definition has_error_field (r : Response) : Prop :=
  match payload r with
  | JsonBody v => exists e, get_field "error" v = Some (JStr e)
  | TextBody _ | NoBody => False
  end.

(** ** The outbound multipart form *)

(** One [formData.append] each. *)
Inductive Part : Type :=
  | FilePart (field : string) (content : list byte) (filename contentType : string)
  | FieldPart (field : string) (value : string).

(** A [FormData] instance: its boundary (drawn by the package when the
    instance is created) and the parts appended so far, in order. *)
Record FormData := {
  boundary : string;
  parts : list Part
}.

Definition new_FormData (b : string) : FormData := {| boundary := b; parts := [] |}.

Definition append (p : Part) (fd : FormData) : FormData :=
  {| boundary := boundary fd; parts := parts fd ++ [p] |}.

(** [formData.getHeaders()]. *)
Definition getHeaders (fd : FormData) : list (string * string) :=
  [("content-type", "multipart/form-data; boundary=" ++ boundary fd)].

Definition is_file_part (p : Part) : bool :=
  match p with FilePart _ _ _ _ => true | FieldPart _ _ => false end.

Definition file_parts (fd : FormData) : list Part :=
  List.filter is_file_part (parts fd).

Definition text_parts (fd : FormData) : list Part :=
  List.filter (fun p => negb (is_file_part p)) (parts fd).

(** ** The outbound call *)

(** Third argument of [axios.post]. *)
Record AxiosConfig := {
  cfg_headers : list (string * string);
  timeout : Z;                  (* milliseconds *)
  maxBodyLength : Z;
  maxContentLength : Z
}.

(** One [axios.post(url, formData, config)]. *)
Record OutboundCall := {
  url : string;
  form : FormData;
  config : AxiosConfig
}.

(** [hfResponse] and [error.response]. *)
Record AxiosResponse := {
  status : Z;
  data : jsvalue
}.

(** The object caught by the handler: [error.code], [error.response],
    [error.message]. *)
Record AxiosError := {
  code : option string;
  response : option AxiosResponse;
  message : string
}.

(** How the awaited promise settles. *)
Inductive Settled : Type :=
  | Fulfilled (r : AxiosResponse)
  | Rejected (e : AxiosError).

(** What a handler run leaves behind: the response it sent and the outbound
    calls it issued, oldest first.  ([console.log] lines are not modelled.) *)
Record Handled := {
  reply : Response;
  outbound : list OutboundCall
}.

(** ** Contracts of the packages the application calls *)

(** Contract of the axios client as the handlers rely on it (package axios,
    default [validateStatus], default [maxRedirects], default [transitional]
    options).  [Upstream] is what comes back for one [axios.post]: the final
    answer, redirects having been followed by the client, with its status,
    its parsed body and the length in bytes of the body as received; or the
    connection breaks with a system error code; or nothing ever comes back.
    Once [config.timeout] milliseconds have passed without completion the
    request is aborted and the promise rejects with code [ECONNABORTED] and
    no [response].  A body longer than [config.maxContentLength] rejects
    without [response], whatever the status.  Otherwise the promise is
    fulfilled for a 2xx status and rejects with [error.response] set for any
    other. *)
Module Axios.

Inductive Upstream : Type :=
  | Answers (delay : Z) (st : Z) (payload : jsvalue) (bytes : Z)
  | Breaks (delay : Z) (errno : string) (msg : string)
  | Hangs.

Definition validateStatus (st : Z) : bool := (200 <=? st) && (st <? 300).

(** The code of a rejection for a status that fails [validateStatus]. *)
Definition bad_status_code (st : Z) : option string :=
  if (400 <=? st) && (st <? 500) then Some "ERR_BAD_REQUEST"
  else Some "ERR_BAD_RESPONSE".

Definition timeout_error (ms : Z) : AxiosError :=
  {| code := Some "ECONNABORTED";
     response := None;
     message := "timeout of " ++ pretty ms ++ "ms exceeded" |}.

Definition too_long_error (limit : Z) : AxiosError :=
  {| code := Some "ERR_BAD_RESPONSE";
     response := None;
     message := "maxContentLength size of " ++ pretty limit ++ " exceeded" |}.

(** The upstream completes before the deadline. *)
Definition completes_within (ms : Z) (u : Upstream) : bool :=
  match u with
  | Answers delay _ _ _ => delay <? ms
  | Breaks delay _ _ => delay <? ms
  | Hangs => false
  end.

Definition post (u : Upstream) (call : OutboundCall) : Settled :=
  let ms := timeout (config call) in
  if completes_within ms u then
    match u with
    | Answers _ st payload bytes =>
        let r := {| status := st; data := payload |} in
        if maxContentLength (config call) <? bytes
        then Rejected (too_long_error (maxContentLength (config call)))
        else if validateStatus st then Fulfilled r
        else Rejected {| code := bad_status_code st;
                         response := Some r;
                         message := "Request failed with status code " ++ pretty st |}
    | Breaks _ errno msg =>
        Rejected {| code := Some errno; response := None; message := msg |}
    | Hangs => Rejected (timeout_error ms)
    end
  else Rejected (timeout_error ms).

(** Milliseconds after which the promise settles. *)
Definition settles_after (u : Upstream) (call : OutboundCall) : Z :=
  let ms := timeout (config call) in
  match u with
  | Answers delay _ _ _ => Z.min delay ms
  | Breaks delay _ _ => Z.min delay ms
  | Hangs => ms
  end.

End Axios.

(** Contract of the form-data package for [formData.append(field, value)]
    with a value taken from [req.body]: a string becomes a text part; an
    array or an object makes [append] throw (for an array, the error
    'Arrays are not supported.').  The thrown object has neither [code] nor
    [response]. *)
Definition append_error (v : FieldValue) : option AxiosError :=
  match v with
  | FText _ => None
  | FArray _ =>
      Some {| code := None; response := None; message := "Arrays are not supported." |}
  | FObject _ =>
      Some {| code := None; response := None; message := "source.on is not a function" |}
  end.

(** Contract of the cors package for a non-function [origin] option: ['*']
    answers every request with [Access-Control-Allow-Origin: *]; an array
    reflects the request's origin when it is an element of the array and
    sets no such header otherwise (nor for an empty origin).  The package
    never fails a request in these modes. *)
Module Cors.

Inductive OriginOption : Type :=
  | AnyOrigin                         (* '*' *)
  | OriginList (l : list string).     (* an array of strings *)

(** Value of the [Access-Control-Allow-Origin] header, if one is set. *)
Definition allow_origin_header (opt : OriginOption) (origin : option string)
  : option string :=
  match opt with
  | AnyOrigin => Some "*"
  | OriginList l =>
      match origin with
      | Some o => if includes l o && truthy (Some o) then Some o else None
      | None => None
      end
  end.

End Cors.

(** Contract of the multer package for [upload.single(fieldname)] with a
    [fileSize] limit and memory storage.  Of a multipart body it takes the
    file parts in order: a file under another field name, or a second file,
    is refused ('Unexpected field'); a file that reaches the size limit is
    refused ('File too large'); then the text parts are taken as multer
    assembles or refuses them.  A refusal is an error passed to [next].
    Otherwise [req.file] and [req.body] are set and the next handler runs.
    A body that is not multipart is passed on with [req.file] unset. *)
Module Multer.

Fixpoint take_files (fieldname : string) (fileSize : Z)
    (taken : option File) (files : list (string * File)) : string + option File :=
  match files with
  | [] => inr taken
  | (field, f) :: rest =>
      if negb (String.eqb field fieldname) then inl "Unexpected field"
      else match taken with
           | Some _ => inl "Unexpected field"
           | None =>
               if fileSize <=? size f then inl "File too large"
               else take_files fieldname fileSize (Some f) rest
           end
  end.

Definition single (fieldname : string) (fileSize : Z) (req : Request)
  : string + Request :=
  match content req with
  | Multipart files fields =>
      match take_files fieldname fileSize None files with
      | inl m => inl m
      | inr taken =>
          match fields with
          | inl m => inl m
          | inr assembled =>
              inr {| ip := ip req; headers := headers req; content := content req;
                     file := taken; body := assembled |}
          end
      end
  | NotMultipart _ =>
      inr {| ip := ip req; headers := headers req; content := content req;
             file := None; body := ∅ |}
  end.

End Multer.

(** The rate limiter. *)
Module RateLimit.

(** A client's counter: hits in the current window and the instant (in
    milliseconds) at which the window ends. *)
Record Hits := {
  totalHits : Z;
  resetTime : Z
}.

(** How far a request to [/analyze] got. *)
Inductive Stage : Type :=
  | BlockedByCors
  | RateLimited (h : Hits)
  | ReachedHandler (h : Hits).

Record Served := {
  stage : Stage;
  answer : Response;
  calls : list OutboundCall
}.

(** A request arriving at an instant, with the upstream's behaviour should
    the handler call it. *)
Record Arrival := {
  at_time : Z;
  request : Request;
  upstream : OutboundCall -> Settled
}.

Section Limiter.
Context {K : Type} `{Countable K}.
(** The options of [rateLimit({...})]. *)
Variable windowMs : Z.
Variable max : Z.
Variable keyGenerator : Request -> K.
Variable message : string.

(** Modelled from the spec: the counting done by the rate-limit
    middleware (package express-rate-limit with its memory store, not
    under src/), a fixed-window counter per client identifier: the first
    hit of a client opens a window of [windowMs] milliseconds, later hits
    inside the window add one, a hit at or after the window's end opens
    a new window. *)
Definition increment (now : Z) (key : K) (store : gmap K Hits)
  : gmap K Hits * Hits :=
  let opened := {| totalHits := 1; resetTime := now + windowMs |} in
  let h :=
    match store !! key with
    | Some h =>
        if now <? resetTime h
        then {| totalHits := totalHits h + 1; resetTime := resetTime h |}
        else opened
    | None => opened
    end in
  (<[key := h]> store, h).

(** Contract of the express-rate-limit package for a client over its
    quota: status 429 and the configured [message] handed to [res.send]; a
    string message goes out as text, not as JSON. *)
Definition too_many : Response :=
  {| statusCode := 429; payload := TextBody message |}.

(** The middleware in front of the handler, in registration order:
    [app.use(cors(...))], then [app.use('/analyze', limiter)], then the
    route handler; an error passed to [next] goes to the error-handling
    middleware. *)
Variable cors_ok : Request -> bool.
Variable on_cors_error : Response.
Variable handler : (OutboundCall -> Settled) -> Request -> Handled.

Definition dispatch (a : Arrival) (store : gmap K Hits) : gmap K Hits * Served :=
  let req := request a in
  if cors_ok req then
    let '(store', h) := increment (at_time a) (keyGenerator req) store in
    if totalHits h <=? max then
      let r := handler (upstream a) req in
      (store', {| stage := ReachedHandler h; answer := reply r; calls := outbound r |})
    else
      (store', {| stage := RateLimited h; answer := too_many; calls := [] |})
  else
    (store, {| stage := BlockedByCors; answer := on_cors_error; calls := [] |}).

(** Requests served one after the other. *)
Fixpoint serve (store : gmap K Hits) (arrivals : list Arrival)
  : list (Arrival * Served) :=
  match arrivals with
  | [] => []
  | a :: rest =>
      let '(store', s) := dispatch a store in
      (a, s) :: serve store' rest
  end.

(** Requests of client [key] that reached the handler in the window
    ending at [w]. *)
Definition reached (key : K) (w : Z) (e : Arrival * Served) : bool :=
  match stage e.2 with
  | ReachedHandler h =>
      bool_decide (keyGenerator (request e.1) = key) && (resetTime h =? w)
  | _ => false
  end.

Definition reached_count (key : K) (w : Z) (log : list (Arrival * Served)) : nat :=
  length (List.filter (reached key w) log).

(** Handler runs still open to client [key] in the window ending at [w],
    given the store: none in a window that is over, what is left of the quota
    in the current window, the whole quota in a window yet to open. *)
Definition budget (store : gmap K Hits) (key : K) (w : Z) : Z :=
  match store !! key with
  | Some h =>
      if w <? resetTime h then 0
      else if w =? resetTime h then Z.max 0 (max - totalHits h)
      else max
  | None => max
  end.

End Limiter.

End RateLimit.

(** ** The later revision, [src/unnamed/part_000] *)

Module Gateway.

Section Handler.
(** [process.env], the boundary drawn for [new FormData()], and the
    behaviour of [axios.post] on the call it is given. *)
Variable env : Env.
Variable fresh_boundary : string.
Variable post : OutboundCall -> Settled.

(** The [catch (error)] block. *)
Definition on_error (error : AxiosError) : Response :=
  if bool_decide (code error = Some "ECONNABORTED") then
    res_status_json 504 (JObj [("error", JStr "Analysis timeout")])
  else
    match response error with
    | Some r =>
        res_status_json (status r)
          (JObj [("error", JStr "Analysis service error"); ("details", data r)])
    | None =>
        res_status_json 500 (JObj [("error", JStr "Internal server error")])
    end.

(** The form built between [new FormData()] and the call. *)
Definition build_form (f : File) (req : Request) : FormData :=
  let formData := new_FormData fresh_boundary in
  let formData :=
    append (FilePart "image" (buffer f) (originalname f) (mimetype f)) formData in
  match body req !! "context_json" with
  | Some (FText context_json) =>
      if truthy (Some context_json)
      then append (FieldPart "context_json" context_json) formData
      else formData
  | _ => formData
  end.

(** The error thrown by [formData.append('context_json', ...)] when the
    member is an array or an object (both are truthy); [build_form] is the
    form built when nothing is thrown. *)
Definition thrown (req : Request) : option AxiosError :=
  match body req !! "context_json" with
  | Some v => append_error v
  | None => None
  end.

Definition build_call (formData : FormData) : OutboundCall :=
  {| url := interpolate (env !! "HF_SPACE_URL") ++ "/analyze";
     form := formData;
     config :=
       {| cfg_headers :=
            getHeaders formData
            ++ [("Authorization", "Bearer " ++ interpolate (env !! "HF_TOKEN"))];
          timeout := 120000;
          maxBodyLength := 100 * 1024 * 1024;
          maxContentLength := 100 * 1024 * 1024 |} |}.

(** The one call of a handler run: [axios.post(url, formData, {...})].  Its
    body stays below [maxBodyLength]: one file below the upload limit and at
    most one text value that multer has accepted. *)
Definition outbound_call (f : File) (req : Request) : OutboundCall :=
  build_call (build_form f req).

(** [app.post('/analyze', upload.single('image'), async (req, res) => ...)],
    the part after multer. *)
Definition analyze (req : Request) : Handled :=
  match file req with
  | None =>
      {| reply := res_status_json 400 (JObj [("error", JStr "No image file provided")]);
         outbound := [] |}
  | Some f =>
      match thrown req with
      | Some error => {| reply := on_error error; outbound := [] |}
      | None =>
          let call := outbound_call f req in
          {| reply :=
               match post call with
               | Fulfilled hfResponse => res_json (data hfResponse)
               | Rejected error => on_error error
               end;
             outbound := [call] |}
      end
  end.

(** [app.use((err, req, res, next) => ...)], the last middleware. *)
Definition error_middleware : Response :=
  res_status_json 500 (JObj [("error", JStr "Internal server error")]).

(** [multer({ limits: { fileSize: 50 * 1024 * 1024 }, ... })]. *)
Definition fileSize : Z := 50 * 1024 * 1024.

(** What runs once the limiter has let a request through, in registration
    order: [app.use(express.json())], then the route
    [app.post('/analyze', upload.single('image'), async (req, res) => ...)];
    an error passed to [next] goes to the error-handling middleware. *)
Definition route (req : Request) : Handled :=
  match content req with
  | NotMultipart (Some _) => {| reply := error_middleware; outbound := [] |}
  | _ =>
      match Multer.single "image" fileSize req with
      | inl _ => {| reply := error_middleware; outbound := [] |}
      | inr parsed => analyze parsed
      end
  end.

End Handler.

(** The array literal inside the [origin] callback. *)
Definition allowedOrigins : list string :=
  [ "http://localhost:5500";
    "http://localhost:5501";
    "http://localhost:5502";
    "http://127.0.0.1:5500";
    "http://127.0.0.1:5501";
    "http://127.0.0.1:5502";
    "http://localhost:3000";
    "http://localhost:8080";
    "https://chestexpertprime.vercel.app";
    "platform.dasmedhub.com";
    "https://proxy-twjq.onrender.com" ].

(** [process.env.ALLOWED_ORIGINS.split(',')] when the variable is truthy. *)
Definition envOrigins (env : Env) : list string :=
  match env !! "ALLOWED_ORIGINS" with
  | Some s => if truthy (Some s) then split ","%char s else []
  | None => []
  end.

(** The [origin] function given to [cors]: [true] stands for
    [callback(null, true)], [false] for
    [callback(new Error('Not allowed by CORS'))]. *)
Definition origin_callback (env : Env) (origin : option string) : bool :=
  match origin with
  | Some o =>
      if negb (truthy (Some o)) then true
      else includes (allowedOrigins ++ envOrigins env) o
           || negb (bool_decide (env !! "NODE_ENV" = Some "production"))
  | None => true
  end.

(** [app.use(cors({origin: ...}))] on a request.  The later
    [app.options('*', cors())] is never reached: with [preflightContinue]
    false this middleware ends every OPTIONS request it accepts, and one it
    refuses goes straight to the error-handling middleware. *)
Definition cors (env : Env) (req : Request) : bool :=
  origin_callback env (headers req !! "origin").

(** The options of [rateLimit({...})]. *)
Definition windowMs : Z := 15 * 60 * 1000.
Definition max : Z := 50.

Definition keyGenerator (req : Request) : string :=
  or_else (ip req) (or_else (headers req !! "x-forwarded-for") "unknown").

(** No [message] option is given: the package's default text. *)
Definition message : string := "Too many requests, please try again later.".

Definition too_many : Response := RateLimit.too_many message.

(** [POST /analyze] through [cors], [limiter] and the route. *)
Definition post_analyze (env : Env) (fresh_boundary : string)
  : RateLimit.Arrival -> gmap string RateLimit.Hits
    -> gmap string RateLimit.Hits * RateLimit.Served :=
  RateLimit.dispatch windowMs max keyGenerator message
    (cors env) error_middleware (route env fresh_boundary).

Definition serve (env : Env) (fresh_boundary : string)
  : gmap string RateLimit.Hits -> list RateLimit.Arrival
    -> list (RateLimit.Arrival * RateLimit.Served) :=
  RateLimit.serve windowMs max keyGenerator message
    (cors env) error_middleware (route env fresh_boundary).

(** [app.get('/health', ...)]; [timestamp] is [new Date().toISOString()]. *)
Definition health (env : Env) (timestamp : string) : Response :=
  res_json
    (JObj [("status", JStr "ok");
           ("timestamp", JStr timestamp);
           ("cors", JStr "enabled");
           ("env", JStr (or_else (env !! "NODE_ENV") "development"))]).

(** [app.get('/test', ...)]. *)
Definition test : Response :=
  res_json (JObj [("message", JStr "Proxy is working!"); ("cors", JStr "ok")]).

End Gateway.

(** ** The first revision, [src/proxy-server.js] *)

Module ProxyServer.

Section Handler.
Variable env : Env.
Variable fresh_boundary : string.
Variable post : OutboundCall -> Settled.

(** [process.env.NODE_ENV === 'development' ? m : undefined]. *)
Definition dev_message (m : string) : jsvalue :=
  if bool_decide (env !! "NODE_ENV" = Some "development") then JStr m else JUndefined.

Definition on_error (error : AxiosError) : Response :=
  if bool_decide (code error = Some "ECONNABORTED") then
    res_status_json 504
      (JObj [("error", JStr "Analysis timeout - the AI model took too long to respond")])
  else
    match response error with
    | Some r =>
        res_status_json (status r)
          (JObj [("error", JStr "Analysis service error"); ("details", data r)])
    | None =>
        res_status_json 500
          (JObj [("error", JStr "Internal server error");
                 ("message", dev_message (message error))])
    end.

Definition build_form (f : File) (req : Request) : FormData :=
  let formData := new_FormData fresh_boundary in
  let formData :=
    append (FilePart "image" (buffer f) (originalname f) (mimetype f)) formData in
  match body req !! "context_json" with
  | Some (FText context_json) =>
      if truthy (Some context_json)
      then append (FieldPart "context_json" context_json) formData
      else formData
  | _ => formData
  end.

(** The error thrown by [formData.append('context_json', ...)] when the
    member is an array or an object (both are truthy); [build_form] is the
    form built when nothing is thrown. *)
Definition thrown (req : Request) : option AxiosError :=
  match body req !! "context_json" with
  | Some v => append_error v
  | None => None
  end.

Definition build_call (formData : FormData) : OutboundCall :=
  {| url := interpolate (env !! "HF_SPACE_URL") ++ "/analyze";
     form := formData;
     config :=
       {| cfg_headers :=
            getHeaders formData
            ++ [("Authorization", "Bearer " ++ interpolate (env !! "HF_TOKEN"))];
          timeout := 120000;
          maxBodyLength := 100 * 1024 * 1024;
          maxContentLength := 100 * 1024 * 1024 |} |}.

Definition outbound_call (f : File) (req : Request) : OutboundCall :=
  build_call (build_form f req).

Definition analyze (req : Request) : Handled :=
  match file req with
  | None =>
      {| reply := res_status_json 400 (JObj [("error", JStr "No image file provided")]);
         outbound := [] |}
  | Some f =>
      match thrown req with
      | Some error => {| reply := on_error error; outbound := [] |}
      | None =>
          let call := outbound_call f req in
          {| reply :=
               match post call with
               | Fulfilled hfResponse => res_json (data hfResponse)
               | Rejected error => on_error error
               end;
             outbound := [call] |}
      end
  end.

(** The error-handling middleware; [m] is [err.message]. *)
Definition error_middleware (m : string) : Response :=
  res_status_json 500
    (JObj [("error", JStr "Internal server error"); ("message", dev_message m)]).

(** [multer({ limits: { fileSize: 50 * 1024 * 1024 }, ... })]. *)
Definition fileSize : Z := 50 * 1024 * 1024.

(** The route [app.post('/analyze', upload.single('image'), async ...)]; an
    error passed to [next] goes to the error-handling middleware. *)
Definition route (req : Request) : Handled :=
  match Multer.single "image" fileSize req with
  | inl m => {| reply := error_middleware m; outbound := [] |}
  | inr parsed => analyze parsed
  end.

End Handler.

(** [origin: process.env.ALLOWED_ORIGINS?.split(',') || '*']. *)
Definition origin_option (env : Env) : Cors.OriginOption :=
  match env !! "ALLOWED_ORIGINS" with
  | Some s => Cors.OriginList (split ","%char s)
  | None => Cors.AnyOrigin
  end.

Definition allow_origin_header (env : Env) (req : Request) : option string :=
  Cors.allow_origin_header (origin_option env) (headers req !! "origin").

(** The options of [rateLimit({...})]; no [keyGenerator] is given and the
    package keys on [req.ip]. *)
Definition windowMs : Z := 15 * 60 * 1000.
Definition max : Z := 50.
Definition message : string := "Too many requests, please try again later.".

Definition keyGenerator (req : Request) : option string := ip req.

Definition too_many : Response := RateLimit.too_many message.

(** [POST /analyze] through [cors] (which fails no request here),
    [limiter] and the route. *)
Definition post_analyze (env : Env) (fresh_boundary : string)
  : RateLimit.Arrival -> gmap (option string) RateLimit.Hits
    -> gmap (option string) RateLimit.Hits * RateLimit.Served :=
  RateLimit.dispatch windowMs max keyGenerator message
    (fun _ => true) (error_middleware env "") (route env fresh_boundary).

Definition serve (env : Env) (fresh_boundary : string)
  : gmap (option string) RateLimit.Hits -> list RateLimit.Arrival
    -> list (RateLimit.Arrival * RateLimit.Served) :=
  RateLimit.serve windowMs max keyGenerator message
    (fun _ => true) (error_middleware env "") (route env fresh_boundary).

(** [app.get('/health', ...)]; [timestamp] is [new Date().toISOString()]. *)
Definition health (timestamp : string) : Response :=
  res_json (JObj [("status", JStr "ok"); ("timestamp", JStr timestamp)]).

End ProxyServer.

(** ** Observations on runs *)

(** Two settlements of the awaited call that differ at most in
    [error.message]. *)
Definition same_but_message (s s' : Settled) : Prop :=
  match s, s' with
  | Fulfilled r, Fulfilled r' => r = r'
  | Rejected e, Rejected e' => code e = code e' /\ response e = response e'
  | _, _ => False
  end.

(** A reply that relays the upstream and need not have an [error] member:
    the body of a fulfilled call, or the bare status of an upstream-reported
    error whose status carries no body. *)
Definition relays (post : OutboundCall -> Settled) (call : OutboundCall)
    (r : Response) : Prop :=
  (exists up, post call = Fulfilled up /\ r = res_json (data up))
  \/ (exists e up,
        post call = Rejected e /\ response e = Some up
        /\ bodiless (status up) = true
        /\ r = {| statusCode := status up; payload := NoBody |}).

(** The served request was refused by the CORS check. *)
Definition is_blocked (e : RateLimit.Arrival * RateLimit.Served) : bool :=
  match RateLimit.stage e.2 with
  | RateLimit.BlockedByCors => true
  | _ => false
  end.

(** The status codes the handler chooses by itself. *)
Definition own_statuses : list Z := [200; 400; 500; 504].

(** ** Sample inputs *)

Definition sample_file : File :=
  {| originalname := "chest.png"; mimetype := "image/png";
     buffer := [x89; x50; x4e; x47]; size := 4 |}.

Definition sample_fields (context_json : option string) : gmap string FieldValue :=
  match context_json with
  | Some c => {[ "context_json" := FText c ]}
  | None => ∅
  end.

(** A request as it arrives with [content], and as multer hands it on with
    [file] and [body]. *)
Definition upload (files : list (string * File)) (fields : gmap string FieldValue)
    (file : option File) : Request :=
  {| ip := Some "203.0.113.7";
     headers := ∅;
     content := Multipart files (inr fields);
     file := file;
     body := fields |}.

Definition sample_request (context_json : option string) : Request :=
  upload [("image", sample_file)] (sample_fields context_json) (Some sample_file).

Definition no_file_request : Request := upload [] ∅ None.

(** The sample file sent under the field [photo], none under [image]. *)
Definition misfiled_request : Request := upload [("photo", sample_file)] ∅ None.

(** The sample upload with the [context_json] field sent twice. *)
Definition repeated_context_request : Request :=
  upload [("image", sample_file)]
    {[ "context_json" := FArray [FText "{}"; FText "{}"] ]} (Some sample_file).

(** A file of exactly the size limit. *)
Definition large_file : File :=
  {| originalname := "scan.png"; mimetype := "image/png";
     buffer := replicate (Z.to_nat 52428800) x00; size := 52428800 |}.

Definition large_request : Request := upload [("image", large_file)] ∅ None.

(** A 2xx answer whose body, padded with white space, is one byte over the
    content limit of the outbound call. *)
Definition padded_answer : Axios.Upstream :=
  Axios.Answers 850 200 (JObj [("result", JStr "ok")]) 104857601.

(** The request as it would be had the [context_json] field not been sent. *)
Definition without_context_json (req : Request) : Request :=
  {| ip := ip req; headers := headers req; content := content req; file := file req;
     body := delete "context_json" (body req) |}.

Definition arrival (t : Z) (req : Request) (u : Axios.Upstream) : RateLimit.Arrival :=
  {| RateLimit.at_time := t; RateLimit.request := req;
     RateLimit.upstream := Axios.post u |}.

(** Fifty-one requests of one client, all in the same second. *)
Definition burst : list RateLimit.Arrival :=
  replicate 51 (arrival 1000 (sample_request None) (Axios.Answers 850 200 JNull 4)).

Definition listed_origin_request : Request :=
  {| ip := Some "203.0.113.7";
     headers := {[ "origin" := "https://chestexpertprime.vercel.app" ]};
     content := NotMultipart None;
     file := None;
     body := ∅ |}.

Definition production : Env := {[ "NODE_ENV" := "production" ]}.

(** The sample upload sent by another client, with further form fields. *)
Definition noisy_request : Request :=
  {| ip := Some "198.51.100.9";
     headers := {[ "origin" := "http://localhost:5500"; "x-api-key" := "k" ]};
     content :=
       Multipart [("image", sample_file)]
         (inr {[ "patient" := FText "42"; "note" := FText "urgent" ]});
     file := Some sample_file;
     body := {[ "patient" := FText "42"; "note" := FText "urgent" ]} |}.

(** A rejection that carries both the timeout code and an upstream response. *)
Definition aborted_with_response (call : OutboundCall) : Settled :=
  Rejected {| code := Some "ECONNABORTED";
              response := Some {| status := 502; data := JStr "bad gateway" |};
              message := "aborted" |}.

(** The same transport failure under two different messages. *)
Definition refused (msg : string) (call : OutboundCall) : Settled :=
  Rejected {| code := Some "ECONNREFUSED"; response := None; message := msg |}.

Definition two_origins : Env :=
  {[ "NODE_ENV" := "production";
     "ALLOWED_ORIGINS" := "https://a.example,https://b.example" ]}.

Definition empty_origins : Env := {[ "ALLOWED_ORIGINS" := "" ]}.

(** A request of the sample client once the burst's window is over. *)
Definition late_arrival : RateLimit.Arrival :=
  arrival 901000 (sample_request None) (Axios.Answers 850 200 JNull 4).

Definition sample_env : Env :=
  {[ "HF_SPACE_URL" := "https://space.example"; "HF_TOKEN" := "hf_secret" ]}.

(** No file part of the arriving request is under the field [image]. *)
Definition lacks_image (req : Request) : Prop :=
  match content req with
  | Multipart files _ => Forall (fun p => p.1 <> "image") files
  | NotMultipart _ => True
  end.

(** The arriving request has no file part at all and no body parser refuses
    it: a multipart body without files whose text parts multer accepts, or
    another body that [express.json] accepts. *)
Definition fileless (req : Request) : Prop :=
  match content req with
  | Multipart [] (inr _) => True
  | NotMultipart None => True
  | _ => False
  end.

(** The reply of the handler to a request without [req.file]. *)
Definition no_image_reply : Response :=
  {| statusCode := 400;
     payload := JsonBody (JObj [("error", JStr "No image file provided")]) |}.

(** The arriving request is one that multer hands to the handler with a
    file and that the handler can send on: its body is multipart with a
    single file part, under [image] and below the size limit, text parts
    that multer accepts, and a [context_json] that is absent or a string. *)
Definition forwardable (req : Request) (f : File) (fields : gmap string FieldValue)
  : Prop :=
  content req = Multipart [("image", f)] (inr fields)
  /\ size f < 52428800
  /\ match fields !! "context_json" with
     | Some (FArray _) | Some (FObject _) => False
     | _ => True
     end.

(** The request as multer hands it on: [req.file] and [req.body] set. *)
Definition parsed_as (req : Request) (f : File) (fields : gmap string FieldValue)
  : Request :=
  {| ip := ip req; headers := headers req; content := content req;
     file := Some f; body := fields |}.

(** [context_json], if present, is a string: no [append] throws. *)
Definition sendable (req : Request) : Prop :=
  match body req !! "context_json" with
  | Some (FArray _) | Some (FObject _) => False
  | _ => True
  end.

(** * Properties *)

(** ** What axios hands to the handler *)

Section AxiosFacts.
Variable call : OutboundCall.

Lemma post_fulfilled delay st d bytes :
  delay < timeout (config call) -> bytes <= maxContentLength (config call) ->
  200 <= st < 300 ->
  Axios.post (Axios.Answers delay st d bytes) call
  = Fulfilled {| status := st; data := d |}.
Proof.
  intros Hd Hb Hs. unfold Axios.post. cbn [Axios.completes_within].
  destruct (Z.ltb_spec delay (timeout (config call))) as [_|]; [|lia].
  destruct (Z.ltb_spec (maxContentLength (config call)) bytes); [lia|].
  unfold Axios.validateStatus.
  destruct (Z.leb_spec 200 st); [|lia].
  destruct (Z.ltb_spec st 300); [|lia].
  reflexivity.
Qed.

Lemma post_bad_status delay st d bytes :
  delay < timeout (config call) -> bytes <= maxContentLength (config call) ->
  ~ (200 <= st < 300) ->
  exists e, Axios.post (Axios.Answers delay st d bytes) call = Rejected e
            /\ code e <> Some "ECONNABORTED"
            /\ response e = Some {| status := st; data := d |}.
Proof.
  intros Hd Hb Hs. unfold Axios.post. cbn [Axios.completes_within].
  destruct (Z.ltb_spec delay (timeout (config call))) as [_|]; [|lia].
  destruct (Z.ltb_spec (maxContentLength (config call)) bytes); [lia|].
  assert (Axios.validateStatus st = false) as ->.
  { unfold Axios.validateStatus.
    destruct (Z.leb_spec 200 st); destruct (Z.ltb_spec st 300); try reflexivity; lia. }
  eexists. split; [reflexivity|]. split; [|reflexivity].
  cbn [code]. unfold Axios.bad_status_code.
  repeat case_match; congruence.
Qed.

Lemma post_too_long delay st d bytes :
  delay < timeout (config call) -> maxContentLength (config call) < bytes ->
  Axios.post (Axios.Answers delay st d bytes) call
  = Rejected (Axios.too_long_error (maxContentLength (config call))).
Proof.
  intros Hd Hb. unfold Axios.post. cbn [Axios.completes_within].
  destruct (Z.ltb_spec delay (timeout (config call))) as [_|]; [|lia].
  destruct (Z.ltb_spec (maxContentLength (config call)) bytes); [reflexivity|lia].
Qed.

Lemma post_breaks delay errno msg :
  delay < timeout (config call) ->
  Axios.post (Axios.Breaks delay errno msg) call
  = Rejected {| code := Some errno; response := None; message := msg |}.
Proof.
  intros Hd. unfold Axios.post. cbn [Axios.completes_within].
  destruct (Z.ltb_spec delay (timeout (config call))) as [_|]; [|lia].
  reflexivity.
Qed.

Lemma post_late u :
  Axios.completes_within (timeout (config call)) u = false ->
  Axios.post u call = Rejected (Axios.timeout_error (timeout (config call)))
  /\ Axios.settles_after u call = timeout (config call).
Proof.
  intros Hu. unfold Axios.post, Axios.settles_after. rewrite Hu.
  split; [reflexivity|].
  destruct u as [delay ? ? ?|delay ? ?|]; cbn in Hu; try reflexivity;
    apply Z.ltb_ge in Hu; lia.
Qed.

End AxiosFacts.

(** ** The handler, case by case *)

(** A sendable request makes no [append] throw, in either revision. *)
Lemma sendable_not_thrown req :
  sendable req -> Gateway.thrown req = None /\ ProxyServer.thrown req = None.
Proof.
  unfold sendable, Gateway.thrown, ProxyServer.thrown.
  destruct (body req !! "context_json") as [[c|items|members]|];
    cbn; intros Hs; try contradiction; auto.
Qed.

Section HandlerCases.
Variable env : Env.
Variable b : string.
Variable post : OutboundCall -> Settled.
Variable req : Request.
Variable f : File.
Hypothesis Hfile : file req = Some f.
Hypothesis Hsend : sendable req.

Lemma gateway_calls_once :
  outbound (Gateway.analyze env b post req) = [Gateway.outbound_call env b f req].
Proof.
  unfold Gateway.analyze.
  rewrite Hfile, (proj1 (sendable_not_thrown req Hsend)). reflexivity.
Qed.

Lemma proxy_calls_once :
  outbound (ProxyServer.analyze env b post req) = [ProxyServer.outbound_call env b f req].
Proof.
  unfold ProxyServer.analyze.
  rewrite Hfile, (proj2 (sendable_not_thrown req Hsend)). reflexivity.
Qed.

Lemma gateway_timeout_is_120s : timeout (config (Gateway.outbound_call env b f req)) = 120000.
Proof. reflexivity. Qed.

Lemma proxy_timeout_is_120s : timeout (config (ProxyServer.outbound_call env b f req)) = 120000.
Proof. reflexivity. Qed.

Lemma gateway_on_fulfilled r :
  post (Gateway.outbound_call env b f req) = Fulfilled r ->
  reply (Gateway.analyze env b post req) = res_json (data r).
Proof.
  intros Hp. unfold Gateway.analyze.
  rewrite Hfile, (proj1 (sendable_not_thrown req Hsend)). cbn [reply].
  rewrite Hp. reflexivity.
Qed.

Lemma proxy_on_fulfilled r :
  post (ProxyServer.outbound_call env b f req) = Fulfilled r ->
  reply (ProxyServer.analyze env b post req) = res_json (data r).
Proof.
  intros Hp. unfold ProxyServer.analyze.
  rewrite Hfile, (proj2 (sendable_not_thrown req Hsend)). cbn [reply].
  rewrite Hp. reflexivity.
Qed.

Lemma gateway_on_rejected e :
  post (Gateway.outbound_call env b f req) = Rejected e ->
  reply (Gateway.analyze env b post req) = Gateway.on_error e.
Proof.
  intros Hp. unfold Gateway.analyze.
  rewrite Hfile, (proj1 (sendable_not_thrown req Hsend)). cbn [reply].
  rewrite Hp. reflexivity.
Qed.

Lemma proxy_on_rejected e :
  post (ProxyServer.outbound_call env b f req) = Rejected e ->
  reply (ProxyServer.analyze env b post req) = ProxyServer.on_error env e.
Proof.
  intros Hp. unfold ProxyServer.analyze.
  rewrite Hfile, (proj2 (sendable_not_thrown req Hsend)). cbn [reply].
  rewrite Hp. reflexivity.
Qed.

End HandlerCases.

(** The [catch] block, branch by branch. *)
Lemma gateway_on_error_timeout e :
  code e = Some "ECONNABORTED" ->
  Gateway.on_error e = res_status_json 504 (JObj [("error", JStr "Analysis timeout")]).
Proof. intros He. unfold Gateway.on_error. rewrite bool_decide_eq_true_2; done. Qed.

Lemma proxy_on_error_timeout env e :
  code e = Some "ECONNABORTED" ->
  ProxyServer.on_error env e
  = res_status_json 504
      (JObj [("error", JStr "Analysis timeout - the AI model took too long to respond")]).
Proof. intros He. unfold ProxyServer.on_error. rewrite bool_decide_eq_true_2; done. Qed.

Lemma gateway_on_error_response e r :
  code e <> Some "ECONNABORTED" -> response e = Some r ->
  Gateway.on_error e
  = res_status_json (status r)
      (JObj [("error", JStr "Analysis service error"); ("details", data r)]).
Proof.
  intros He Hr. unfold Gateway.on_error.
  rewrite bool_decide_eq_false_2 by done. rewrite Hr. reflexivity.
Qed.

Lemma proxy_on_error_response env e r :
  code e <> Some "ECONNABORTED" -> response e = Some r ->
  ProxyServer.on_error env e
  = res_status_json (status r)
      (JObj [("error", JStr "Analysis service error"); ("details", data r)]).
Proof.
  intros He Hr. unfold ProxyServer.on_error.
  rewrite bool_decide_eq_false_2 by done. rewrite Hr. reflexivity.
Qed.

Lemma gateway_on_error_other e :
  code e <> Some "ECONNABORTED" -> response e = None ->
  Gateway.on_error e = res_status_json 500 (JObj [("error", JStr "Internal server error")]).
Proof.
  intros He Hr. unfold Gateway.on_error.
  rewrite bool_decide_eq_false_2 by done. rewrite Hr. reflexivity.
Qed.

Lemma proxy_on_error_other env e :
  code e <> Some "ECONNABORTED" -> response e = None ->
  ProxyServer.on_error env e
  = res_status_json 500
      (JObj [("error", JStr "Internal server error");
             ("message", ProxyServer.dev_message env (message e))]).
Proof.
  intros He Hr. unfold ProxyServer.on_error.
  rewrite bool_decide_eq_false_2 by done. rewrite Hr. reflexivity.
Qed.



(** ** Claims about the handler *)

(** C1, as stated, fails: the upstream answers 200 with a JSON body that,
    padded with white space, is one byte over the 100 MiB the outbound call
    allows ([maxContentLength]); axios rejects the call without a response
    and the gateway answers 500, not 200.  Both revisions. *)
Lemma oversized_success_is_500 :
  reply (Gateway.analyze sample_env "b" (Axios.post padded_answer) (sample_request None))
  = {| statusCode := 500;
       payload := JsonBody (JObj [("error", JStr "Internal server error")]) |}
  /\ statusCode (reply (ProxyServer.analyze sample_env "b" (Axios.post padded_answer)
                          (sample_request None))) = 500.
Proof. split; reflexivity. Qed.

(** C1, amended.  For a request that reaches the handler with a file and
    whose [context_json] is absent or a string: when the upstream call
    succeeds (final status 2xx, before the deadline, body of at most
    100 MiB) the reply is HTTP 200 and the value axios parsed from the
    upstream body is handed to [res.json] as it is, with no reshaping and no
    renaming; Express serialises that value anew.  Both revisions. *)
Theorem analyze_relays_upstream_success env b req f delay st d bytes :
  file req = Some f ->
  sendable req ->
  delay < 120000 ->
  bytes <= 104857600 ->
  200 <= st < 300 ->
  reply (Gateway.analyze env b (Axios.post (Axios.Answers delay st d bytes)) req)
  = {| statusCode := 200; payload := JsonBody d |}
  /\ reply (ProxyServer.analyze env b (Axios.post (Axios.Answers delay st d bytes)) req)
     = {| statusCode := 200; payload := JsonBody d |}.
Proof.
  intros Hf Hsend Hd Hb Hs. split.
  - rewrite (gateway_on_fulfilled env b _ req f Hf Hsend {| status := st; data := d |});
      [reflexivity|].
    apply post_fulfilled; [exact Hd | exact Hb | exact Hs].
  - rewrite (proxy_on_fulfilled env b _ req f Hf Hsend {| status := st; data := d |});
      [reflexivity|].
    apply post_fulfilled; [exact Hd | exact Hb | exact Hs].
Qed.

Lemma analyze_relays_upstream_success_witness :
  reply (Gateway.analyze sample_env "b"
           (Axios.post (Axios.Answers 850 200 (JObj [("result", JStr "ok")]) 15))
           (sample_request None))
  = {| statusCode := 200; payload := JsonBody (JObj [("result", JStr "ok")]) |}
  /\ reply (ProxyServer.analyze sample_env "b"
              (Axios.post (Axios.Answers 850 200 (JObj [("result", JStr "ok")]) 15))
              (sample_request None))
     = {| statusCode := 200; payload := JsonBody (JObj [("result", JStr "ok")]) |}.
Proof.
  apply (analyze_relays_upstream_success sample_env "b" (sample_request None)
           sample_file 850 200 (JObj [("result", JStr "ok")]) 15).
  - reflexivity.
  - exact I.
  - lia.
  - lia.
  - lia.
Defined.

(** Without a file under [image], multer either refuses the upload or
    hands the request on with [req.file] unset. *)
Lemma take_files_without_image fileSize files :
  Forall (fun p : string * File => p.1 <> "image") files ->
  forall taken,
    match Multer.take_files "image" fileSize taken files with
    | inl _ => True
    | inr taken' => taken' = taken
    end.
Proof.
  induction 1 as [|[field f] rest Hfield _ _]; intros taken; cbn.
  - reflexivity.
  - cbn in Hfield. destruct (String.eqb_spec field "image"); [contradiction|].
    exact I.
Qed.

Lemma single_without_image fileSize req :
  lacks_image req ->
  match Multer.single "image" fileSize req with
  | inl _ => True
  | inr parsed => file parsed = None
  end.
Proof.
  unfold lacks_image, Multer.single. destruct (content req) as [files fields|j].
  - intros Hfiles.
    pose proof (take_files_without_image fileSize files Hfiles None) as Htake.
    destruct (Multer.take_files "image" fileSize None files) as [m|taken]; [exact I|].
    destruct fields as [m|assembled]; [exact I|]. exact Htake.
  - intros _. reflexivity.
Qed.

Lemma gateway_route_without_image env b post req :
  lacks_image req -> outbound (Gateway.route env b post req) = [].
Proof.
  intros Hreq. unfold Gateway.route.
  pose proof (single_without_image Gateway.fileSize req Hreq) as Hs.
  destruct (Multer.single "image" Gateway.fileSize req) as [m|parsed].
  - destruct (content req) as [? ?|[?|]]; reflexivity.
  - unfold Gateway.analyze. rewrite Hs.
    destruct (content req) as [? ?|[?|]]; reflexivity.
Qed.

Lemma proxy_route_without_image env b post req :
  lacks_image req -> outbound (ProxyServer.route env b post req) = [].
Proof.
  intros Hreq. unfold ProxyServer.route.
  pose proof (single_without_image ProxyServer.fileSize req Hreq) as Hs.
  destruct (Multer.single "image" ProxyServer.fileSize req) as [m|parsed];
    [reflexivity|].
  unfold ProxyServer.analyze. rewrite Hs. reflexivity.
Qed.

Lemma fileless_lacks_image req : fileless req -> lacks_image req.
Proof.
  unfold fileless, lacks_image.
  destruct (content req) as [[|? ?] ?|?]; intros H; try contradiction; auto.
Qed.

Lemma gateway_route_fileless env b post req :
  fileless req ->
  Gateway.route env b post req = {| reply := no_image_reply; outbound := [] |}.
Proof.
  unfold fileless, Gateway.route, Multer.single.
  destruct (content req) as [[|? ?] [?|?]|[?|]]; intros H; try contradiction;
    reflexivity.
Qed.

Lemma proxy_route_fileless env b post req :
  fileless req ->
  ProxyServer.route env b post req = {| reply := no_image_reply; outbound := [] |}.
Proof.
  unfold fileless, ProxyServer.route, Multer.single.
  destruct (content req) as [[|? ?] [?|?]|[?|]]; intros H; try contradiction;
    reflexivity.
Qed.

(** C2, as stated, fails: a request with no file under [image] but the file
    under the field [photo] passes the CORS check and the limiter, is refused
    by multer, and is answered 500 by the error-handling middleware, not 400.
    Both revisions. *)
Lemma file_under_other_field_is_500 :
  lacks_image misfiled_request
  /\ RateLimit.answer
       (Gateway.post_analyze sample_env "b" (arrival 1000 misfiled_request Axios.Hangs) ∅).2
     = {| statusCode := 500;
          payload := JsonBody (JObj [("error", JStr "Internal server error")]) |}
  /\ statusCode
       (RateLimit.answer
          (ProxyServer.post_analyze sample_env "b"
             (arrival 1000 misfiled_request Axios.Hangs) ∅).2) = 500.
Proof.
  split; [|split; vm_compute; reflexivity].
  repeat constructor. discriminate.
Qed.

(** C2, amended.  A request to [/analyze] with no file part under the field
    [image] causes no outbound call, whatever the middleware does with it.
    When such a request has no file part at all and no body parser refuses
    it, the route answers HTTP 400 with the JSON body
    [{error: 'No image file provided'}]; this is the gateway's response
    whenever the request passes the CORS check and the rate limiter.  Both
    revisions. *)
Theorem analyze_without_file_is_400
  (env : Env) (b : string) (a : RateLimit.Arrival)
  (store : gmap string RateLimit.Hits)
  (store' : gmap (option string) RateLimit.Hits) :
  lacks_image (RateLimit.request a) ->
  (RateLimit.calls (Gateway.post_analyze env b a store).2 = []
   /\ RateLimit.calls (ProxyServer.post_analyze env b a store').2 = [])
  /\ (fileless (RateLimit.request a) ->
      has_error_field no_image_reply
      /\ Gateway.route env b (RateLimit.upstream a) (RateLimit.request a)
         = {| reply := no_image_reply; outbound := [] |}
      /\ ProxyServer.route env b (RateLimit.upstream a) (RateLimit.request a)
         = {| reply := no_image_reply; outbound := [] |}
      /\ (forall h,
          RateLimit.stage (Gateway.post_analyze env b a store).2
          = RateLimit.ReachedHandler h ->
          RateLimit.answer (Gateway.post_analyze env b a store).2 = no_image_reply)
      /\ (forall h,
          RateLimit.stage (ProxyServer.post_analyze env b a store').2
          = RateLimit.ReachedHandler h ->
          RateLimit.answer (ProxyServer.post_analyze env b a store').2 = no_image_reply)).
Proof.
  intros Hlack. split; [split|].
  - unfold Gateway.post_analyze, RateLimit.dispatch.
    destruct (Gateway.cors env (RateLimit.request a)); [|reflexivity].
    destruct (RateLimit.increment _ _ _ _) as [st h].
    destruct (RateLimit.totalHits h <=? Gateway.max); [|reflexivity].
    cbn. apply gateway_route_without_image, Hlack.
  - unfold ProxyServer.post_analyze, RateLimit.dispatch.
    destruct (RateLimit.increment _ _ _ _) as [st h].
    destruct (RateLimit.totalHits h <=? ProxyServer.max); [|reflexivity].
    cbn. apply proxy_route_without_image, Hlack.
  - intros Hnone.
    split; [cbn; eexists; reflexivity|].
    split; [apply gateway_route_fileless, Hnone|].
    split; [apply proxy_route_fileless, Hnone|].
    split; intros h.
    + unfold Gateway.post_analyze, RateLimit.dispatch.
      destruct (Gateway.cors env (RateLimit.request a)); [|discriminate].
      destruct (RateLimit.increment _ _ _ _) as [st h'].
      destruct (RateLimit.totalHits h' <=? Gateway.max); [|discriminate].
      cbn. intros _. rewrite (gateway_route_fileless env b _ _ Hnone). reflexivity.
    + unfold ProxyServer.post_analyze, RateLimit.dispatch.
      destruct (RateLimit.increment _ _ _ _) as [st h'].
      destruct (RateLimit.totalHits h' <=? ProxyServer.max); [|discriminate].
      cbn. intros _. rewrite (proxy_route_fileless env b _ _ Hnone). reflexivity.
Qed.

Lemma analyze_without_file_is_400_witness :
  RateLimit.answer
    (Gateway.post_analyze sample_env "b" (arrival 1000 no_file_request Axios.Hangs) ∅).2
  = no_image_reply.
Proof.
  destruct (analyze_without_file_is_400 sample_env "b"
              (arrival 1000 no_file_request Axios.Hangs) ∅ ∅) as [_ Hreply].
  - constructor.
  - destruct (Hreply I) as (_ & _ & _ & Hgate & _).
    apply (Hgate {| RateLimit.totalHits := 1; RateLimit.resetTime := 901000 |}).
    vm_compute. reflexivity.
Defined.

(** The form a handler run builds: the file part first, then the text part
    when [context_json] is a non-empty string. *)
Lemma gateway_form_parts b f req :
  parts (Gateway.build_form b f req)
  = FilePart "image" (buffer f) (originalname f) (mimetype f)
    :: match body req !! "context_json" with
       | Some (FText c) => if String.eqb c "" then [] else [FieldPart "context_json" c]
       | _ => []
       end.
Proof.
  unfold Gateway.build_form.
  destruct (body req !! "context_json") as [[c|items|members]|]; try reflexivity.
  unfold truthy. destruct (String.eqb c ""); reflexivity.
Qed.

Lemma proxy_form_parts b f req :
  parts (ProxyServer.build_form b f req)
  = FilePart "image" (buffer f) (originalname f) (mimetype f)
    :: match body req !! "context_json" with
       | Some (FText c) => if String.eqb c "" then [] else [FieldPart "context_json" c]
       | _ => []
       end.
Proof. apply gateway_form_parts. Qed.

(** Reads the file parts and the text parts off a form whose parts are known. *)
Ltac read_parts Hparts :=
  unfold file_parts, text_parts; rewrite Hparts;
  repeat case_match; split; reflexivity.

(** When [append] throws, the [catch] block answers 500 and no call is made. *)
Lemma gateway_on_thrown env b post req f :
  file req = Some f -> ~ sendable req ->
  outbound (Gateway.analyze env b post req) = []
  /\ reply (Gateway.analyze env b post req)
     = {| statusCode := 500;
          payload := JsonBody (JObj [("error", JStr "Internal server error")]) |}.
Proof.
  intros Hf Hs. unfold Gateway.analyze, Gateway.thrown. rewrite Hf.
  unfold sendable in Hs.
  destruct (body req !! "context_json") as [[c|items|members]|]; cbn in *;
    try (exfalso; apply Hs; exact I); split; reflexivity.
Qed.

Lemma proxy_on_thrown env b post req f :
  file req = Some f -> ~ sendable req ->
  outbound (ProxyServer.analyze env b post req) = []
  /\ statusCode (reply (ProxyServer.analyze env b post req)) = 500.
Proof.
  intros Hf Hs. unfold ProxyServer.analyze, ProxyServer.thrown. rewrite Hf.
  unfold sendable in Hs.
  destruct (body req !! "context_json") as [[c|items|members]|]; cbn in *;
    try (exfalso; apply Hs; exact I); split; reflexivity.
Qed.

(** C3, as stated, fails: a request that provides [context_json] as the empty
    string goes out with no text part at all. *)
Lemma empty_context_json_is_dropped :
  body (sample_request (Some "")) !! "context_json" = Some (FText "")
  /\ exists call,
       outbound (Gateway.analyze sample_env "b" (Axios.post Axios.Hangs)
                   (sample_request (Some ""))) = [call]
       /\ text_parts (form call) = []
       /\ text_parts (form call) <> [FieldPart "context_json" ""].
Proof.
  split; [reflexivity|]. eexists. split; [reflexivity|].
  split; [reflexivity|]. vm_compute. discriminate.
Qed.

(** C3, amended.  For a request that reaches the handler with a file (multer
    has accepted a single file under [image], below the size limit): when
    [context_json] is absent or a string, the one outbound call carries
    exactly one file part, field [image], with the inbound file's bytes,
    filename and content type, and exactly one text part, field
    [context_json], equal to the inbound field when that is a non-empty
    string, no text part otherwise; when [context_json] was sent more than
    once or under a bracketed name, so that it is an array or an object,
    [append] throws, no outbound call is made and the reply is 500.  Both
    revisions. *)
Theorem outbound_form_mirrors_upload env b post req f :
  file req = Some f ->
  (sendable req ->
   (exists call,
       outbound (Gateway.analyze env b post req) = [call]
       /\ file_parts (form call)
          = [FilePart "image" (buffer f) (originalname f) (mimetype f)]
       /\ text_parts (form call)
          = match body req !! "context_json" with
            | Some (FText c) =>
                if String.eqb c "" then [] else [FieldPart "context_json" c]
            | _ => []
            end)
   /\ (exists call,
       outbound (ProxyServer.analyze env b post req) = [call]
       /\ file_parts (form call)
          = [FilePart "image" (buffer f) (originalname f) (mimetype f)]
       /\ text_parts (form call)
          = match body req !! "context_json" with
            | Some (FText c) =>
                if String.eqb c "" then [] else [FieldPart "context_json" c]
            | _ => []
            end))
  /\ (~ sendable req ->
      outbound (Gateway.analyze env b post req) = []
      /\ statusCode (reply (Gateway.analyze env b post req)) = 500
      /\ outbound (ProxyServer.analyze env b post req) = []
      /\ statusCode (reply (ProxyServer.analyze env b post req)) = 500).
Proof.
  intros Hf. split; [intros Hs; split|intros Hs].
  - exists (Gateway.outbound_call env b f req).
    split; [apply gateway_calls_once; assumption|].
    cbn [Gateway.outbound_call Gateway.build_call form].
    read_parts (gateway_form_parts b f req).
  - exists (ProxyServer.outbound_call env b f req).
    split; [apply proxy_calls_once; assumption|].
    cbn [ProxyServer.outbound_call ProxyServer.build_call form].
    read_parts (proxy_form_parts b f req).
  - destruct (gateway_on_thrown env b post req f Hf Hs) as [Hg1 Hg2].
    destruct (proxy_on_thrown env b post req f Hf Hs) as [Hp1 Hp2].
    rewrite Hg2. auto.
Qed.

Lemma outbound_form_mirrors_upload_witness :
  exists call,
    outbound (Gateway.analyze sample_env "b" (Axios.post Axios.Hangs)
                (sample_request (Some "{}"))) = [call]
    /\ file_parts (form call)
       = [FilePart "image" [x89; x50; x4e; x47] "chest.png" "image/png"]
    /\ text_parts (form call) = [FieldPart "context_json" "{}"].
Proof.
  exact (proj1 (proj1 (outbound_form_mirrors_upload sample_env "b"
                         (Axios.post Axios.Hangs)
                         (sample_request (Some "{}")) sample_file eq_refl) I)).
Defined.

(** Two uploads that never reach the upstream: a file of exactly the size
    limit is refused by multer, and a [context_json] sent twice makes
    [append] throw; both are answered 500. *)
Lemma large_upload_is_refused :
  Multer.single "image" Gateway.fileSize large_request = inl "File too large"
  /\ Gateway.route sample_env "b" (Axios.post Axios.Hangs) large_request
     = {| reply := Gateway.error_middleware; outbound := [] |}.
Proof. split; reflexivity. Qed.

Lemma repeated_context_json_is_500 :
  Gateway.route sample_env "b" (Axios.post Axios.Hangs) repeated_context_request
  = {| reply := {| statusCode := 500;
                   payload := JsonBody (JObj [("error", JStr "Internal server error")]) |};
       outbound := [] |}.
Proof. reflexivity. Qed.

(** C10.  A request whose [context_json] is the empty string goes out with no
    [context_json] text part, and the handler run is the very run it makes
    when the field is absent.  Both revisions. *)
Theorem empty_context_json_as_absent env b post req f :
  file req = Some f ->
  body req !! "context_json" = Some (FText "") ->
  (text_parts (Gateway.build_form b f req) = []
   /\ Gateway.analyze env b post req
      = Gateway.analyze env b post (without_context_json req))
  /\ (text_parts (ProxyServer.build_form b f req) = []
      /\ ProxyServer.analyze env b post req
         = ProxyServer.analyze env b post (without_context_json req)).
Proof.
  intros Hf Hc.
  assert (Hgone : body (without_context_json req) !! "context_json" = None)
    by apply lookup_delete_eq.
  split; split.
  - unfold text_parts. rewrite gateway_form_parts, Hc. reflexivity.
  - unfold Gateway.analyze, Gateway.thrown, Gateway.outbound_call, Gateway.build_form.
    cbn [without_context_json file]. rewrite Hf.
    rewrite Hc, Hgone. reflexivity.
  - unfold text_parts. rewrite proxy_form_parts, Hc. reflexivity.
  - unfold ProxyServer.analyze, ProxyServer.thrown, ProxyServer.outbound_call,
      ProxyServer.build_form.
    cbn [without_context_json file]. rewrite Hf.
    rewrite Hc, Hgone. reflexivity.
Qed.

Lemma empty_context_json_as_absent_witness :
  text_parts (Gateway.build_form "b" sample_file (sample_request (Some ""))) = []
  /\ Gateway.analyze sample_env "b" (Axios.post Axios.Hangs) (sample_request (Some ""))
     = Gateway.analyze sample_env "b" (Axios.post Axios.Hangs)
         (without_context_json (sample_request (Some ""))).
Proof.
  exact (proj1 (empty_context_json_as_absent sample_env "b" (Axios.post Axios.Hangs)
                  (sample_request (Some "")) sample_file eq_refl eq_refl)).
Defined.

(** C6, as stated, fails: the upstream answers 304; the gateway relays the
    status, but a 304 goes out without a body, so the response holds neither
    the error marker nor the upstream's payload.  Both revisions. *)
Lemma upstream_304_has_no_body :
  reply (Gateway.analyze sample_env "b"
           (Axios.post (Axios.Answers 850 304 (JStr "") 0)) (sample_request None))
  = {| statusCode := 304; payload := NoBody |}
  /\ reply (ProxyServer.analyze sample_env "b"
              (Axios.post (Axios.Answers 850 304 (JStr "") 0)) (sample_request None))
     = {| statusCode := 304; payload := NoBody |}.
Proof. split; reflexivity. Qed.

(** C6, amended.  For a request that reaches the handler with a file and
    whose [context_json] is absent or a string: when the final answer to the
    outbound call (redirects are followed by axios) arrives before the
    deadline, with a body of at most 100 MiB and a status outside 2xx, the
    gateway answers with that same status; the body is the JSON object
    holding the marker [error: 'Analysis service error'] and, under
    [details], the upstream's payload, except for a status that carries no
    body (304, 1xx), which goes out with the status alone.  Both revisions. *)
Theorem upstream_error_status_is_relayed env b req f delay st d bytes :
  file req = Some f ->
  sendable req ->
  delay < 120000 ->
  bytes <= 104857600 ->
  ~ (200 <= st < 300) ->
  reply (Gateway.analyze env b (Axios.post (Axios.Answers delay st d bytes)) req)
  = {| statusCode := st;
       payload := if bodiless st then NoBody
                  else JsonBody (JObj [("error", JStr "Analysis service error");
                                       ("details", d)]) |}
  /\ reply (ProxyServer.analyze env b (Axios.post (Axios.Answers delay st d bytes)) req)
     = {| statusCode := st;
          payload := if bodiless st then NoBody
                     else JsonBody (JObj [("error", JStr "Analysis service error");
                                          ("details", d)]) |}.
Proof.
  intros Hf Hsend Hd Hb Hs. split.
  - destruct (post_bad_status (Gateway.outbound_call env b f req) delay st d bytes
                Hd Hb Hs) as (e & Hpost & Hcode & Hresp).
    rewrite (gateway_on_rejected env b _ req f Hf Hsend e Hpost).
    rewrite (gateway_on_error_response e _ Hcode Hresp). reflexivity.
  - destruct (post_bad_status (ProxyServer.outbound_call env b f req) delay st d bytes
                Hd Hb Hs) as (e & Hpost & Hcode & Hresp).
    rewrite (proxy_on_rejected env b _ req f Hf Hsend e Hpost).
    rewrite (proxy_on_error_response env e _ Hcode Hresp). reflexivity.
Qed.

Lemma upstream_error_status_is_relayed_witness :
  reply (Gateway.analyze sample_env "b"
           (Axios.post (Axios.Answers 850 422 (JObj [("detail", JStr "bad image")]) 22))
           (sample_request None))
  = {| statusCode := 422;
       payload := JsonBody (JObj [("error", JStr "Analysis service error");
                                  ("details", JObj [("detail", JStr "bad image")])]) |}.
Proof.
  apply (upstream_error_status_is_relayed sample_env "b" (sample_request None)
           sample_file 850 422 (JObj [("detail", JStr "bad image")]) 22).
  - reflexivity.
  - exact I.
  - lia.
  - lia.
  - lia.
Defined.

(** C7.  The outbound call (made for a request that reaches the handler with
    a file and whose [context_json] is absent or a string) carries a timeout
    of 120000 ms; when the upstream has not completed by then, the awaited
    call settles at the deadline and the gateway answers HTTP 504 with a
    fixed message ('Analysis timeout' in the later revision, a longer fixed
    text in the first). *)
Theorem upstream_timeout_is_504 env b req f u :
  file req = Some f ->
  sendable req ->
  Axios.completes_within 120000 u = false ->
  (timeout (config (Gateway.outbound_call env b f req)) = 120000
   /\ Axios.settles_after u (Gateway.outbound_call env b f req) = 120000
   /\ Gateway.analyze env b (Axios.post u) req
      = {| reply := {| statusCode := 504;
                       payload := JsonBody (JObj [("error", JStr "Analysis timeout")]) |};
           outbound := [Gateway.outbound_call env b f req] |})
  /\ (timeout (config (ProxyServer.outbound_call env b f req)) = 120000
      /\ Axios.settles_after u (ProxyServer.outbound_call env b f req) = 120000
      /\ ProxyServer.analyze env b (Axios.post u) req
         = {| reply :=
                {| statusCode := 504;
                   payload :=
                     JsonBody
                       (JObj [("error",
                               JStr "Analysis timeout - the AI model took too long to respond")]) |};
              outbound := [ProxyServer.outbound_call env b f req] |}).
Proof.
  intros Hf Hsend Hu.
  destruct (sendable_not_thrown req Hsend) as [Hg Hp]. split.
  - destruct (post_late (Gateway.outbound_call env b f req) u Hu) as [Hpost Hat].
    split; [reflexivity|]. split; [exact Hat|].
    unfold Gateway.analyze. rewrite Hf, Hg. cbn zeta. rewrite Hpost. reflexivity.
  - destruct (post_late (ProxyServer.outbound_call env b f req) u Hu) as [Hpost Hat].
    split; [reflexivity|]. split; [exact Hat|].
    unfold ProxyServer.analyze. rewrite Hf, Hp. cbn zeta. rewrite Hpost. reflexivity.
Qed.

Lemma upstream_timeout_is_504_witness :
  reply (Gateway.analyze sample_env "b" (Axios.post Axios.Hangs) (sample_request None))
  = {| statusCode := 504;
       payload := JsonBody (JObj [("error", JStr "Analysis timeout")]) |}.
Proof.
  exact (f_equal reply
           (proj2 (proj2 (proj1 (upstream_timeout_is_504 sample_env "b"
                                   (sample_request None) sample_file Axios.Hangs
                                   eq_refl I eq_refl))))).
Defined.

(** C8, as stated, fails: a connection that is aborted 12 ms into the call
    is not a timeout, yet the error carries the code [ECONNABORTED], the only
    thing the handler tests, and the gateway answers 504, not 500.  Both
    revisions. *)
Lemma aborted_connection_is_504 :
  reply (Gateway.analyze sample_env "b"
           (Axios.post (Axios.Breaks 12 "ECONNABORTED" "socket hang up"))
           (sample_request None))
  = {| statusCode := 504;
       payload := JsonBody (JObj [("error", JStr "Analysis timeout")]) |}
  /\ statusCode
       (reply (ProxyServer.analyze sample_env "b"
                 (Axios.post (Axios.Breaks 12 "ECONNABORTED" "socket hang up"))
                 (sample_request None))) = 504.
Proof. split; reflexivity. Qed.

(** C8, amended.  When the outbound call (made for a request that reaches
    the handler with a file and whose [context_json] is absent or a string)
    fails before the deadline without any upstream response (DNS failure,
    connection refused, ...), with an error code other than [ECONNABORTED],
    the gateway answers HTTP 500 with the generic body
    [{error: 'Internal server error'}]; the first revision adds the error's
    message under [message] when NODE_ENV is 'development'.  A failure that
    carries the code [ECONNABORTED] is answered 504 like a timeout. *)
Theorem transport_failure_is_500 env b req f delay errno msg :
  file req = Some f ->
  sendable req ->
  delay < 120000 ->
  errno <> "ECONNABORTED" ->
  reply (Gateway.analyze env b (Axios.post (Axios.Breaks delay errno msg)) req)
  = {| statusCode := 500;
       payload := JsonBody (JObj [("error", JStr "Internal server error")]) |}
  /\ reply (ProxyServer.analyze env b (Axios.post (Axios.Breaks delay errno msg)) req)
     = {| statusCode := 500;
          payload := JsonBody (JObj [("error", JStr "Internal server error");
                                     ("message", ProxyServer.dev_message env msg)]) |}.
Proof.
  intros Hf Hsend Hd Hno.
  assert (Hcode : Some errno <> Some "ECONNABORTED") by congruence.
  split.
  - rewrite (gateway_on_rejected env b _ req f Hf Hsend _
               (post_breaks (Gateway.outbound_call env b f req) delay errno msg Hd)).
    apply gateway_on_error_other; [exact Hcode | reflexivity].
  - rewrite (proxy_on_rejected env b _ req f Hf Hsend _
               (post_breaks (ProxyServer.outbound_call env b f req) delay errno msg Hd)).
    rewrite proxy_on_error_other; [reflexivity | exact Hcode | reflexivity].
Qed.

Lemma transport_failure_is_500_witness :
  reply (Gateway.analyze sample_env "b"
           (Axios.post (Axios.Breaks 12 "ENOTFOUND" "getaddrinfo ENOTFOUND space.example"))
           (sample_request None))
  = {| statusCode := 500;
       payload := JsonBody (JObj [("error", JStr "Internal server error")]) |}.
Proof.
  apply (transport_failure_is_500 sample_env "b" (sample_request None) sample_file
           12 "ENOTFOUND" "getaddrinfo ENOTFOUND space.example").
  - reflexivity.
  - exact I.
  - lia.
  - discriminate.
Defined.

(** ** Claims about the middleware *)

(** [split] cuts at every separator and nowhere else. *)
Lemma split_nonempty sep s : split sep s <> [].
Proof.
  destruct s as [|c rest]; cbn; [discriminate|].
  destruct (Ascii.eqb c sep); [discriminate|].
  destruct (split sep rest); discriminate.
Qed.

Lemma join_split sep s : join sep (split sep s) = s.
Proof.
  induction s as [|c rest IH]; [reflexivity|].
  cbn [split]. destruct (Ascii.eqb_spec c sep) as [->|Hc].
  - pose proof (split_nonempty sep rest) as Hne.
    cbn [join]. destruct (split sep rest) as [|w ws]; [contradiction|].
    rewrite IH. reflexivity.
  - destruct (split sep rest) as [|w ws] eqn:Hs.
    + exfalso. exact (split_nonempty sep rest Hs).
    + destruct ws; cbn [join] in *; rewrite <- IH; reflexivity.
Qed.

Lemma split_pieces_free sep s w :
  In w (split sep s) -> mentions sep w = false.
Proof.
  revert w. induction s as [|c rest IH]; intros w Hw.
  - destruct Hw as [<-|[]]. reflexivity.
  - cbn [split] in Hw. destruct (Ascii.eqb_spec c sep) as [->|Hc].
    + destruct Hw as [<-|Hw]; [reflexivity | exact (IH _ Hw)].
    + destruct (split sep rest) as [|w0 ws].
      * destruct Hw as [<-|[]]. cbn.
        destruct (Ascii.eqb_spec c sep); [contradiction|reflexivity].
      * destruct Hw as [<-|Hw].
        -- cbn. destruct (Ascii.eqb_spec c sep); [contradiction|].
           apply IH. left. reflexivity.
        -- apply IH. right. exact Hw.
Qed.

Lemma includes_In l x : includes l x = true <-> In x l.
Proof.
  unfold includes. rewrite existsb_exists. split.
  - intros (y & Hy & Heq). apply String.eqb_eq in Heq. subst. exact Hy.
  - intros Hx. exists x. split; [exact Hx | apply String.eqb_refl].
Qed.

Lemma truthy_nonempty s : s <> "" -> truthy (Some s) = true.
Proof.
  intros Hs. unfold truthy. destruct (String.eqb_spec s ""); [contradiction|reflexivity].
Qed.

(** C5, as stated, fails: with NODE_ENV unset, an origin that is on neither
    list is granted. *)
Lemma unlisted_origin_granted_outside_production :
  Gateway.origin_callback ∅ (Some "https://evil.example") = true
  /\ ~ In "https://evil.example" (Gateway.allowedOrigins ++ Gateway.envOrigins ∅).
Proof.
  split; [reflexivity|].
  rewrite <- includes_In. vm_compute. discriminate.
Qed.

(** C5, amended.  Later revision: a request carrying a non-empty Origin header
    is granted exactly when the origin is on the built-in list, or among the
    comma-separated entries of a non-empty ALLOWED_ORIGINS, or NODE_ENV is not
    'production'; a request with no Origin header, or an empty one, is always
    allowed.  First revision: there is no built-in list; the origin is granted
    exactly when ALLOWED_ORIGINS is unset or the origin is among its
    comma-separated entries, and no request is ever refused on CORS grounds. *)
Theorem cors_grant_rule (env : Env) (req : Request) (o : string) :
  headers req !! "origin" = Some o ->
  o <> "" ->
  (Gateway.cors env req = true
   <-> In o Gateway.allowedOrigins
       \/ (exists s, env !! "ALLOWED_ORIGINS" = Some s /\ s <> "" /\ In o (split ","%char s))
       \/ env !! "NODE_ENV" <> Some "production")
  /\ Gateway.origin_callback env None = true
  /\ Gateway.origin_callback env (Some "") = true
  /\ (is_Some (ProxyServer.allow_origin_header env req)
      <-> env !! "ALLOWED_ORIGINS" = None
          \/ exists s, env !! "ALLOWED_ORIGINS" = Some s /\ In o (split ","%char s))
  /\ (forall b a store,
      RateLimit.stage (ProxyServer.post_analyze env b a store).2
      <> RateLimit.BlockedByCors).
Proof.
  intros Ho Hne. split; [|split; [reflexivity|split; [reflexivity|split]]];
    [| |intros b a store; unfold ProxyServer.post_analyze, RateLimit.dispatch;
        destruct (RateLimit.increment _ _ _ _) as [st h];
        destruct (RateLimit.totalHits h <=? ProxyServer.max); discriminate].
  - unfold Gateway.cors, Gateway.origin_callback. rewrite Ho.
    rewrite (truthy_nonempty o Hne). cbn [negb].
    rewrite orb_true_iff, includes_In, in_app_iff, negb_true_iff.
    rewrite bool_decide_eq_false.
    assert (Henv : In o (Gateway.envOrigins env)
                   <-> exists s, env !! "ALLOWED_ORIGINS" = Some s
                                 /\ s <> "" /\ In o (split ","%char s)).
    { unfold Gateway.envOrigins.
      destruct (env !! "ALLOWED_ORIGINS") as [s|].
      - unfold truthy. destruct (String.eqb_spec s "") as [->|Hs]; cbn [negb].
        + split; [intros []|]. intros (s' & [= <-] & Hs' & _). contradiction.
        + split; [intros Hin; exists s; auto|].
          intros (s' & [= <-] & _ & Hin). exact Hin.
      - split; [intros []|]. intros (s' & [=] & _). }
    rewrite Henv. tauto.
  - unfold ProxyServer.allow_origin_header, ProxyServer.origin_option.
    rewrite Ho. destruct (env !! "ALLOWED_ORIGINS") as [s|];
      cbn [Cors.allow_origin_header].
    + rewrite (truthy_nonempty o Hne), andb_true_r.
      destruct (includes (split ","%char s) o) eqn:Hin.
      * apply includes_In in Hin. split; [|intros _; eauto].
        intros _. right. exists s. auto.
      * split; [intros [x [=]]|].
        intros [[=]|(s' & [= <-] & Hin')].
        apply includes_In in Hin'. congruence.
    + split; [intros _; left; reflexivity | intros _; eauto].
Qed.

Lemma cors_grant_rule_witness :
  Gateway.cors production listed_origin_request = true.
Proof.
  destruct (cors_grant_rule production listed_origin_request
              "https://chestexpertprime.vercel.app") as [Hgrant _].
  - vm_compute. reflexivity.
  - discriminate.
  - apply Hgrant. left. vm_compute. tauto.
Defined.

(** The error-handling middleware answers with an [error] member. *)
Lemma gateway_error_middleware_has_error : has_error_field Gateway.error_middleware.
Proof. cbn. eexists. reflexivity. Qed.

Lemma proxy_error_middleware_has_error env m :
  has_error_field (ProxyServer.error_middleware env m).
Proof. cbn. eexists. reflexivity. Qed.

(** Every branch of the [catch] block answers with an [error] member, unless
    it relays a status that carries no body. *)
Lemma gateway_on_error_has_error e :
  has_error_field (Gateway.on_error e)
  \/ exists up, response e = Some up /\ bodiless (status up) = true
                /\ Gateway.on_error e = {| statusCode := status up; payload := NoBody |}.
Proof.
  unfold Gateway.on_error. case_bool_decide; [left; cbn; eexists; reflexivity|].
  destruct (response e) as [up|]; [|left; cbn; eexists; reflexivity].
  unfold res_status_json. destruct (bodiless (status up)) eqn:Hb.
  - right. exists up. auto.
  - left. unfold has_error_field. cbn. eexists. reflexivity.
Qed.

Lemma proxy_on_error_has_error env e :
  has_error_field (ProxyServer.on_error env e)
  \/ exists up, response e = Some up /\ bodiless (status up) = true
                /\ ProxyServer.on_error env e
                   = {| statusCode := status up; payload := NoBody |}.
Proof.
  unfold ProxyServer.on_error. case_bool_decide; [left; cbn; eexists; reflexivity|].
  destruct (response e) as [up|]; [|left; cbn; eexists; reflexivity].
  unfold res_status_json. destruct (bodiless (status up)) eqn:Hb.
  - right. exists up. auto.
  - left. unfold has_error_field. cbn. eexists. reflexivity.
Qed.

(** A handler run either relays the upstream or answers with an [error]
    member. *)
Lemma gateway_handler_replies env b post req :
  has_error_field (reply (Gateway.analyze env b post req))
  \/ exists f, file req = Some f
               /\ relays post (Gateway.outbound_call env b f req)
                    (reply (Gateway.analyze env b post req)).
Proof.
  unfold Gateway.analyze. destruct (file req) as [f|]; cbn [reply].
  - destruct (Gateway.thrown req) as [err|] eqn:Hthrown; cbn [reply].
    + left. unfold Gateway.thrown in Hthrown.
      destruct (body req !! "context_json") as [[?|?|?]|]; cbn in Hthrown;
        try discriminate; injection Hthrown as <-; cbn; eexists; reflexivity.
    + destruct (post (Gateway.outbound_call env b f req)) as [r|e] eqn:Hpost.
      * right. exists f. split; [reflexivity|]. left. exists r. auto.
      * destruct (gateway_on_error_has_error e) as [He|(up & Hup & Hb & He)];
          [left; exact He|].
        right. exists f. split; [reflexivity|]. right. exists e, up. auto.
  - left. cbn. eexists. reflexivity.
Qed.

Lemma proxy_handler_replies env b post req :
  has_error_field (reply (ProxyServer.analyze env b post req))
  \/ exists f, file req = Some f
               /\ relays post (ProxyServer.outbound_call env b f req)
                    (reply (ProxyServer.analyze env b post req)).
Proof.
  unfold ProxyServer.analyze. destruct (file req) as [f|]; cbn [reply].
  - destruct (ProxyServer.thrown req) as [err|] eqn:Hthrown; cbn [reply].
    + left. unfold ProxyServer.thrown in Hthrown.
      destruct (body req !! "context_json") as [[?|?|?]|]; cbn in Hthrown;
        try discriminate; injection Hthrown as <-; cbn; eexists; reflexivity.
    + destruct (post (ProxyServer.outbound_call env b f req)) as [r|e] eqn:Hpost.
      * right. exists f. split; [reflexivity|]. left. exists r. auto.
      * destruct (proxy_on_error_has_error env e) as [He|(up & Hup & Hb & He)];
          [left; exact He|].
        right. exists f. split; [reflexivity|]. right. exists e, up. auto.
  - left. cbn. eexists. reflexivity.
Qed.

(** The same for the route, where a refusal by a body parser is answered by
    the error-handling middleware. *)
Lemma gateway_route_replies env b post req :
  has_error_field (reply (Gateway.route env b post req))
  \/ exists parsed f,
       Multer.single "image" Gateway.fileSize req = inr parsed
       /\ file parsed = Some f
       /\ relays post (Gateway.outbound_call env b f parsed)
            (reply (Gateway.route env b post req)).
Proof.
  unfold Gateway.route.
  destruct (Multer.single "image" Gateway.fileSize req) as [m|parsed] eqn:Hm.
  - left. destruct (content req) as [? ?|[?|]];
      apply gateway_error_middleware_has_error.
  - destruct (content req) as [? ?|[?|]];
      try (left; apply gateway_error_middleware_has_error);
      (destruct (gateway_handler_replies env b post parsed) as [He|(f & Hf & Hr)];
       [left; exact He | right; exists parsed, f; auto]).
Qed.

Lemma proxy_route_replies env b post req :
  has_error_field (reply (ProxyServer.route env b post req))
  \/ exists parsed f,
       Multer.single "image" ProxyServer.fileSize req = inr parsed
       /\ file parsed = Some f
       /\ relays post (ProxyServer.outbound_call env b f parsed)
            (reply (ProxyServer.route env b post req)).
Proof.
  unfold ProxyServer.route.
  destruct (Multer.single "image" ProxyServer.fileSize req) as [m|parsed] eqn:Hm.
  - left. apply proxy_error_middleware_has_error.
  - destruct (proxy_handler_replies env b post parsed) as [He|(f & Hf & Hr)];
      [left; exact He | right; exists parsed, f; auto].
Qed.

(** C9, as stated, fails: the fifty-first request of a burst is turned away by
    the rate limiter with status 429 and a plain-text body, which has no
    [error] member.  Both revisions. *)
Lemma rate_limit_rejection_is_plain_text :
  (exists a s,
      ProxyServer.serve sample_env "b" ∅ burst !! 50%nat = Some (a, s)
      /\ RateLimit.answer s
         = {| statusCode := 429;
              payload := TextBody "Too many requests, please try again later." |}
      /\ ~ has_error_field (RateLimit.answer s))
  /\ (exists a s,
      Gateway.serve sample_env "b" ∅ burst !! 50%nat = Some (a, s)
      /\ RateLimit.answer s
         = {| statusCode := 429;
              payload := TextBody "Too many requests, please try again later." |}
      /\ ~ has_error_field (RateLimit.answer s)).
Proof.
  split; eexists; eexists; (split; [vm_compute; reflexivity|]);
    (split; [reflexivity|]); intros H; exact H.
Qed.

(** C9, amended.  Whatever the request, the store and the upstream: a request
    refused by the CORS check, by multer or by [express.json] is answered by
    the error-handling middleware, whose JSON body has an [error] member; a
    request that reaches the handler is answered with a JSON body that has
    an [error] member (missing file, timeout, upstream-reported error,
    transport failure, [append] throwing), or else the reply relays the
    upstream: the body of a fulfilled call, or, for an upstream-reported
    error whose status carries no body (304, 1xx), that status alone.  The
    rate limiter's rejection is status 429 with the plain text 'Too many
    requests, please try again later.' and no JSON body.  Both revisions. *)
Theorem error_bodies_have_error_field
  (env : Env) (b : string) (a : RateLimit.Arrival)
  (store : gmap string RateLimit.Hits)
  (store' : gmap (option string) RateLimit.Hits) (m : string) :
  match RateLimit.stage (Gateway.post_analyze env b a store).2 with
  | RateLimit.BlockedByCors =>
      has_error_field (RateLimit.answer (Gateway.post_analyze env b a store).2)
  | RateLimit.RateLimited _ =>
      RateLimit.answer (Gateway.post_analyze env b a store).2
      = {| statusCode := 429;
           payload := TextBody "Too many requests, please try again later." |}
  | RateLimit.ReachedHandler _ =>
      has_error_field (RateLimit.answer (Gateway.post_analyze env b a store).2)
      \/ exists parsed f,
           Multer.single "image" Gateway.fileSize (RateLimit.request a) = inr parsed
           /\ file parsed = Some f
           /\ relays (RateLimit.upstream a) (Gateway.outbound_call env b f parsed)
                (RateLimit.answer (Gateway.post_analyze env b a store).2)
  end
  /\ match RateLimit.stage (ProxyServer.post_analyze env b a store').2 with
     | RateLimit.BlockedByCors =>
         has_error_field (RateLimit.answer (ProxyServer.post_analyze env b a store').2)
     | RateLimit.RateLimited _ =>
         RateLimit.answer (ProxyServer.post_analyze env b a store').2
         = {| statusCode := 429;
              payload := TextBody "Too many requests, please try again later." |}
     | RateLimit.ReachedHandler _ =>
         has_error_field (RateLimit.answer (ProxyServer.post_analyze env b a store').2)
         \/ exists parsed f,
              Multer.single "image" ProxyServer.fileSize (RateLimit.request a)
              = inr parsed
              /\ file parsed = Some f
              /\ relays (RateLimit.upstream a) (ProxyServer.outbound_call env b f parsed)
                   (RateLimit.answer (ProxyServer.post_analyze env b a store').2)
     end
  /\ has_error_field Gateway.error_middleware
  /\ has_error_field (ProxyServer.error_middleware env m).
Proof.
  split; [|split; [|split]].
  - unfold Gateway.post_analyze, RateLimit.dispatch.
    destruct (Gateway.cors env (RateLimit.request a)).
    + destruct (RateLimit.increment _ _ _ _) as [st h].
      destruct (RateLimit.totalHits h <=? Gateway.max); cbn.
      * apply gateway_route_replies.
      * reflexivity.
    + cbn. apply gateway_error_middleware_has_error.
  - unfold ProxyServer.post_analyze, RateLimit.dispatch.
    destruct (RateLimit.increment _ _ _ _) as [st h].
    destruct (RateLimit.totalHits h <=? ProxyServer.max); cbn.
    + apply proxy_route_replies.
    + reflexivity.
  - apply gateway_error_middleware_has_error.
  - apply proxy_error_middleware_has_error.
Qed.

(** ** The rate limiter *)

Section LimiterFacts.
Context {K : Type} `{Countable K}.
Variables (windowMs max : Z) (keyGenerator : Request -> K) (message : string).
Variables (cors_ok : Request -> bool) (on_cors_error : Response).
Variable handler : (OutboundCall -> Settled) -> Request -> Handled.
Hypothesis window_positive : 0 < windowMs.
Hypothesis max_nonneg : 0 <= max.

Local Abbreviation run :=
  (RateLimit.serve windowMs max keyGenerator message cors_ok on_cors_error handler).
Local Abbreviation count := (RateLimit.reached_count keyGenerator).
Local Abbreviation room := (RateLimit.budget max).

Lemma serve_cons a store rest :
  run store (a :: rest)
  = (a, (RateLimit.dispatch windowMs max keyGenerator message cors_ok
           on_cors_error handler a store).2)
    :: run (RateLimit.dispatch windowMs max keyGenerator message cors_ok
              on_cors_error handler a store).1 rest.
Proof.
  cbn [RateLimit.serve].
  destruct (RateLimit.dispatch _ _ _ _ _ _ _ a store) as [store' s]. reflexivity.
Qed.

(** The handler runs of a client in a window never exceed what the store
    leaves open. *)
Lemma reached_within_budget arrivals :
  forall store key w,
    Z.of_nat (count key w (run store arrivals)) <= room store key w.
Proof.
  induction arrivals as [|a rest IH]; intros store key w.
  - cbn. unfold RateLimit.budget. repeat case_match; lia.
  - rewrite serve_cons. unfold RateLimit.reached_count in *.
    cbn [List.filter]. unfold RateLimit.dispatch.
    destruct (cors_ok (RateLimit.request a)); [|apply IH].
    unfold RateLimit.increment.
    set (k' := keyGenerator (RateLimit.request a)).
    set (opened := {| RateLimit.totalHits := 1;
                      RateLimit.resetTime := RateLimit.at_time a + windowMs |}).
    set (h' := match store !! k' with
               | Some h => if RateLimit.at_time a <? RateLimit.resetTime h
                           then {| RateLimit.totalHits := RateLimit.totalHits h + 1;
                                   RateLimit.resetTime := RateLimit.resetTime h |}
                           else opened
               | None => opened
               end).
    specialize (IH (<[k' := h']> store) key w).
    destruct (decide (k' = key)) as [Heq|Hne].
    + (* the arriving client is [key] *)
      subst key.
      unfold RateLimit.budget in *. rewrite lookup_insert_eq in IH.
      destruct (RateLimit.totalHits h' <=? max) eqn:Hpass;
        cbn [fst snd]; unfold RateLimit.reached at 1; cbn [snd fst RateLimit.stage];
        fold k'; try rewrite (bool_decide_eq_true_2 (k' = k') eq_refl); cbn [andb];
        subst h'; destruct (store !! k') as [h|];
        try destruct (Z.ltb_spec (RateLimit.at_time a) (RateLimit.resetTime h));
        cbn [RateLimit.totalHits RateLimit.resetTime opened] in *;
        repeat match goal with
               | |- context [?x <? ?y] => destruct (Z.ltb_spec x y)
               | |- context [?x =? ?y] => destruct (Z.eqb_spec x y)
               | H : context [?x <? ?y] |- _ => destruct (Z.ltb_spec x y)
               | H : context [?x =? ?y] |- _ => destruct (Z.eqb_spec x y)
               | H : (_ <=? _) = true |- _ => apply Z.leb_le in H
               | H : (_ <=? _) = false |- _ => apply Z.leb_gt in H
               end;
        cbn [length] in *; lia.
    + (* another client *)
      assert (Hroom : room (<[k' := h']> store) key w = room store key w).
      { unfold RateLimit.budget. rewrite lookup_insert_ne by exact Hne. reflexivity. }
      rewrite Hroom in IH.
      destruct (RateLimit.totalHits h' <=? max);
        cbn [fst snd]; unfold RateLimit.reached at 1; cbn [snd fst RateLimit.stage];
        fold k'; try rewrite (bool_decide_eq_false_2 _ Hne); cbn [andb]; exact IH.
Qed.

(** What the route does with the [n]-th hit of a window ending at [r]. *)
Lemma served_in_window arrivals :
  forall store key h,
    store !! key = Some h ->
    Forall (fun a => cors_ok (RateLimit.request a) = true
                     /\ keyGenerator (RateLimit.request a) = key
                     /\ RateLimit.at_time a < RateLimit.resetTime h) arrivals ->
    forall (i : nat) a s,
      run store arrivals !! i = Some (a, s) ->
      let hi := {| RateLimit.totalHits := RateLimit.totalHits h + Z.of_nat i + 1;
                   RateLimit.resetTime := RateLimit.resetTime h |} in
      s = if RateLimit.totalHits hi <=? max
          then {| RateLimit.stage := RateLimit.ReachedHandler hi;
                  RateLimit.answer :=
                    reply (handler (RateLimit.upstream a) (RateLimit.request a));
                  RateLimit.calls :=
                    outbound (handler (RateLimit.upstream a) (RateLimit.request a)) |}
          else {| RateLimit.stage := RateLimit.RateLimited hi;
                  RateLimit.answer := RateLimit.too_many message;
                  RateLimit.calls := [] |}.
Proof.
  induction arrivals as [|a0 rest IH]; intros store key h Hstore Hall i a s Hi.
  - destruct i; discriminate.
  - apply Forall_cons in Hall as [(Hcors & Hkey & Htime) Hall].
    rewrite serve_cons in Hi. unfold RateLimit.dispatch in Hi.
    rewrite Hcors in Hi. unfold RateLimit.increment in Hi.
    rewrite Hkey, Hstore in Hi.
    destruct (Z.ltb_spec (RateLimit.at_time a0) (RateLimit.resetTime h)); [|lia].
    destruct i as [|i].
    + cbn [lookup list_lookup] in Hi. injection Hi as <- <-.
      replace (RateLimit.totalHits h + Z.of_nat 0 + 1) with (RateLimit.totalHits h + 1)
        by lia.
      cbn [RateLimit.totalHits].
      destruct (RateLimit.totalHits h + 1 <=? max); reflexivity.
    + assert (Hrest :
          run (<[key := {| RateLimit.totalHits := RateLimit.totalHits h + 1;
                           RateLimit.resetTime := RateLimit.resetTime h |}]> store) rest
          !! i = Some (a, s)).
      { destruct (RateLimit.totalHits _ <=? max) in Hi; exact Hi. }
      pose proof (IH _ key {| RateLimit.totalHits := RateLimit.totalHits h + 1;
                              RateLimit.resetTime := RateLimit.resetTime h |}
                    (lookup_insert_eq store key _) Hall i a s Hrest) as IH'.
      cbn [RateLimit.totalHits RateLimit.resetTime] in IH'.
      replace (RateLimit.totalHits h + Z.of_nat (S i) + 1)
        with (RateLimit.totalHits h + 1 + Z.of_nat i + 1) by lia.
      exact IH'.
Qed.

(** The same, counted from the request that opens the window. *)
Lemma served_from_fresh first rest :
  forall store,
    store !! keyGenerator (RateLimit.request first) = None ->
    Forall (fun a => cors_ok (RateLimit.request a) = true
                     /\ keyGenerator (RateLimit.request a)
                        = keyGenerator (RateLimit.request first)
                     /\ RateLimit.at_time a < RateLimit.at_time first + windowMs)
           (first :: rest) ->
    forall (i : nat) a s,
      run store (first :: rest) !! i = Some (a, s) ->
      let hi := {| RateLimit.totalHits := Z.of_nat i + 1;
                   RateLimit.resetTime := RateLimit.at_time first + windowMs |} in
      s = if RateLimit.totalHits hi <=? max
          then {| RateLimit.stage := RateLimit.ReachedHandler hi;
                  RateLimit.answer :=
                    reply (handler (RateLimit.upstream a) (RateLimit.request a));
                  RateLimit.calls :=
                    outbound (handler (RateLimit.upstream a) (RateLimit.request a)) |}
          else {| RateLimit.stage := RateLimit.RateLimited hi;
                  RateLimit.answer := RateLimit.too_many message;
                  RateLimit.calls := [] |}.
Proof.
  intros store Hstore Hall i a s Hi.
  apply Forall_cons in Hall as [(Hcors & _ & _) Hall].
  rewrite serve_cons in Hi. unfold RateLimit.dispatch in Hi.
  rewrite Hcors in Hi. unfold RateLimit.increment in Hi. rewrite Hstore in Hi.
  destruct i as [|i].
  - cbn [lookup list_lookup] in Hi. injection Hi as <- <-.
    cbn [RateLimit.totalHits]. change (Z.of_nat 0 + 1) with 1.
    destruct (1 <=? max); reflexivity.
  - assert (Hrest :
        run (<[keyGenerator (RateLimit.request first) :=
                 {| RateLimit.totalHits := 1;
                    RateLimit.resetTime := RateLimit.at_time first + windowMs |}]> store)
          rest !! i = Some (a, s)).
    { destruct (RateLimit.totalHits _ <=? max) in Hi; exact Hi. }
    pose proof (served_in_window rest _ (keyGenerator (RateLimit.request first))
                  {| RateLimit.totalHits := 1;
                     RateLimit.resetTime := RateLimit.at_time first + windowMs |}
                  (lookup_insert_eq store _ _) Hall i a s Hrest) as Hs.
    cbn [RateLimit.totalHits RateLimit.resetTime] in Hs.
    replace (Z.of_nat (S i) + 1) with (1 + Z.of_nat i + 1) by lia.
    exact Hs.
Qed.

End LimiterFacts.

(** C4.  With the configured quota of 50 per window of 15 minutes
    ([windowMs] = 900000): from the empty store, whatever the sequence of
    requests, for every client identifier and every window at most 50 of that
    client's requests reach the handler; and when a client's requests all
    arrive before the window opened by its first request ends, the first 50
    reach the handler while the 51st (and any later one) is answered by the
    limiter with status 429, the handler does not run and no outbound call is
    made.  Both revisions. *)
Theorem rate_limit_quota (env : Env) (b : string) :
  (forall arrivals key w,
      (RateLimit.reached_count Gateway.keyGenerator key w
         (Gateway.serve env b ∅ arrivals) <= 50)%nat)
  /\ (forall arrivals key w,
      (RateLimit.reached_count ProxyServer.keyGenerator key w
         (ProxyServer.serve env b ∅ arrivals) <= 50)%nat)
  /\ (forall first rest (store : gmap string RateLimit.Hits) (i : nat) a s,
      store !! Gateway.keyGenerator (RateLimit.request first) = None ->
      Forall (fun a => Gateway.cors env (RateLimit.request a) = true
                       /\ Gateway.keyGenerator (RateLimit.request a)
                          = Gateway.keyGenerator (RateLimit.request first)
                       /\ RateLimit.at_time a < RateLimit.at_time first + 900000)
             (first :: rest) ->
      Gateway.serve env b store (first :: rest) !! i = Some (a, s) ->
      if (i <? 50)%nat
      then RateLimit.stage s
           = RateLimit.ReachedHandler
               {| RateLimit.totalHits := Z.of_nat i + 1;
                  RateLimit.resetTime := RateLimit.at_time first + 900000 |}
      else RateLimit.stage s
           = RateLimit.RateLimited
               {| RateLimit.totalHits := Z.of_nat i + 1;
                  RateLimit.resetTime := RateLimit.at_time first + 900000 |}
           /\ statusCode (RateLimit.answer s) = 429
           /\ RateLimit.calls s = [])
  /\ (forall first rest (store : gmap (option string) RateLimit.Hits) (i : nat) a s,
      store !! ProxyServer.keyGenerator (RateLimit.request first) = None ->
      Forall (fun a => ProxyServer.keyGenerator (RateLimit.request a)
                       = ProxyServer.keyGenerator (RateLimit.request first)
                       /\ RateLimit.at_time a < RateLimit.at_time first + 900000)
             (first :: rest) ->
      ProxyServer.serve env b store (first :: rest) !! i = Some (a, s) ->
      if (i <? 50)%nat
      then RateLimit.stage s
           = RateLimit.ReachedHandler
               {| RateLimit.totalHits := Z.of_nat i + 1;
                  RateLimit.resetTime := RateLimit.at_time first + 900000 |}
      else RateLimit.stage s
           = RateLimit.RateLimited
               {| RateLimit.totalHits := Z.of_nat i + 1;
                  RateLimit.resetTime := RateLimit.at_time first + 900000 |}
           /\ statusCode (RateLimit.answer s) = 429
           /\ RateLimit.calls s = []).
Proof.
  assert (Hw : 0 < 900000) by lia.
  assert (Hm : 0 <= 50) by lia.
  split; [|split; [|split]].
  - intros arrivals key w.
    pose proof (reached_within_budget Gateway.windowMs Gateway.max Gateway.keyGenerator
                  Gateway.message (Gateway.cors env) Gateway.error_middleware
                  (Gateway.route env b) Hw Hm arrivals ∅ key w) as Hb.
    unfold RateLimit.budget in Hb. rewrite lookup_empty in Hb.
    apply Nat2Z.inj_le. exact Hb.
  - intros arrivals key w.
    pose proof (reached_within_budget ProxyServer.windowMs ProxyServer.max
                  ProxyServer.keyGenerator ProxyServer.message (fun _ => true)
                  (ProxyServer.error_middleware env "")
                  (ProxyServer.route env b) Hw Hm arrivals ∅ key w) as Hb.
    unfold RateLimit.budget in Hb. rewrite lookup_empty in Hb.
    apply Nat2Z.inj_le. exact Hb.
  - intros first rest store i a s Hfresh Hall Hi.
    pose proof (served_from_fresh Gateway.windowMs Gateway.max Gateway.keyGenerator
                  Gateway.message (Gateway.cors env) Gateway.error_middleware
                  (Gateway.route env b) first rest store Hfresh Hall i a s Hi) as Hs.
    cbn [RateLimit.totalHits] in Hs. change Gateway.max with 50 in Hs.
    change Gateway.windowMs with 900000 in Hs.
    destruct (Nat.ltb_spec i 50);
      (destruct (Z.leb_spec (Z.of_nat i + 1) 50); [|]; try lia); subst s; auto.
  - intros first rest store i a s Hfresh Hall Hi.
    assert (Hall' :
        Forall (fun a => (fun _ : Request => true) (RateLimit.request a) = true
                         /\ ProxyServer.keyGenerator (RateLimit.request a)
                            = ProxyServer.keyGenerator (RateLimit.request first)
                         /\ RateLimit.at_time a
                            < RateLimit.at_time first + ProxyServer.windowMs)
               (first :: rest)).
    { eapply Forall_impl; [exact Hall|]. cbn. intros x [Hk Ht]. auto. }
    pose proof (served_from_fresh ProxyServer.windowMs ProxyServer.max
                  ProxyServer.keyGenerator ProxyServer.message (fun _ => true)
                  (ProxyServer.error_middleware env "")
                  (ProxyServer.route env b) first rest store Hfresh Hall' i a s Hi) as Hs.
    cbn [RateLimit.totalHits] in Hs. change ProxyServer.max with 50 in Hs.
    change ProxyServer.windowMs with 900000 in Hs.
    destruct (Nat.ltb_spec i 50);
      (destruct (Z.leb_spec (Z.of_nat i + 1) 50); [|]; try lia); subst s; auto.
Qed.

Lemma rate_limit_quota_witness :
  exists a s,
    Gateway.serve sample_env "b" ∅ burst !! 50%nat = Some (a, s)
    /\ RateLimit.stage s
       = RateLimit.RateLimited {| RateLimit.totalHits := 51; RateLimit.resetTime := 901000 |}
    /\ statusCode (RateLimit.answer s) = 429
    /\ RateLimit.calls s = [].
Proof.
  destruct (Gateway.serve sample_env "b" ∅ burst !! 50%nat) as [[a s]|] eqn:Hi;
    [|vm_compute in Hi; discriminate].
  exists a, s. split; [reflexivity|].
  refine (proj1 (proj2 (proj2 (rate_limit_quota sample_env "b")))
            (arrival 1000 (sample_request None) (Axios.Answers 850 200 JNull 4))
            (replicate 50 (arrival 1000 (sample_request None) (Axios.Answers 850 200 JNull 4)))
            ∅ 50%nat a s _ _ Hi).
  - apply lookup_empty.
  - change (Forall
              (fun a => Gateway.cors sample_env (RateLimit.request a) = true
                        /\ Gateway.keyGenerator (RateLimit.request a)
                           = Gateway.keyGenerator
                               (RateLimit.request
                                  (arrival 1000 (sample_request None)
                                     (Axios.Answers 850 200 JNull 4)))
                        /\ RateLimit.at_time a
                           < RateLimit.at_time
                               (arrival 1000 (sample_request None)
                                  (Axios.Answers 850 200 JNull 4)) + 900000)
              (replicate 51
                 (arrival 1000 (sample_request None) (Axios.Answers 850 200 JNull 4)))).
    apply Forall_replicate. split; [reflexivity|]. split; [reflexivity|]. cbn. lia.
Defined.

(** * Further properties of the code *)

(** ** The handler *)

(** Both revisions build the same outbound call. *)
Lemma same_outbound_call env b f req :
  ProxyServer.outbound_call env b f req = Gateway.outbound_call env b f req.
Proof. reflexivity. Qed.

(** X1.  The handler reads nothing of the request but [req.file] and
    [req.body.context_json]: two requests that agree on these get the same
    reply and the same outbound call, whatever their address, headers and
    other form fields, which are therefore never forwarded.  Both revisions. *)
Theorem analyze_reads_only_file_and_context_json env b post req req' :
  file req = file req' ->
  body req !! "context_json" = body req' !! "context_json" ->
  Gateway.analyze env b post req = Gateway.analyze env b post req'
  /\ ProxyServer.analyze env b post req = ProxyServer.analyze env b post req'.
Proof.
  intros Hf Hc.
  assert (Hform : forall f, Gateway.build_form b f req = Gateway.build_form b f req').
  { intros f. unfold Gateway.build_form. rewrite Hc. reflexivity. }
  assert (Hthrown : Gateway.thrown req = Gateway.thrown req').
  { unfold Gateway.thrown. rewrite Hc. reflexivity. }
  split.
  - unfold Gateway.analyze, Gateway.outbound_call. rewrite <- Hf, <- Hthrown.
    destruct (file req) as [f|]; [rewrite (Hform f)|]; reflexivity.
  - unfold ProxyServer.analyze, ProxyServer.outbound_call. rewrite <- Hf.
    change (ProxyServer.thrown req') with (Gateway.thrown req').
    rewrite <- Hthrown.
    destruct (file req) as [f|]; [|reflexivity].
    change (ProxyServer.build_form b f) with (Gateway.build_form b f).
    rewrite (Hform f). reflexivity.
Qed.

Lemma analyze_reads_only_file_and_context_json_witness :
  Gateway.analyze sample_env "b" (Axios.post Axios.Hangs) (sample_request None)
  = Gateway.analyze sample_env "b" (Axios.post Axios.Hangs) noisy_request.
Proof.
  apply (analyze_reads_only_file_and_context_json sample_env "b"
           (Axios.post Axios.Hangs) (sample_request None) noisy_request).
  - reflexivity.
  - vm_compute. reflexivity.
Defined.

(** An error thrown by [append] has neither code nor response: the [catch]
    block answers 500. *)
Lemma thrown_is_plain req err :
  Gateway.thrown req = Some err -> code err = None /\ response err = None.
Proof.
  unfold Gateway.thrown.
  destruct (body req !! "context_json") as [[?|?|?]|]; cbn; intros [= <-]; auto.
Qed.

Lemma thrown_status env req err :
  Gateway.thrown req = Some err ->
  statusCode (Gateway.on_error err) = 500
  /\ statusCode (ProxyServer.on_error env err) = 500.
Proof.
  intros Hth. destruct (thrown_is_plain req err Hth) as [Hc Hr].
  unfold Gateway.on_error, ProxyServer.on_error. rewrite Hc, Hr.
  split; reflexivity.
Qed.

(** X2.  Whatever the request and however the outbound call settles, the
    status of the handler's reply is 200, 400, 500 or 504, or else it is the
    status of the response carried by the error the call was rejected with.
    Both revisions. *)
Theorem reply_status_is_classified env b post req :
  (In (statusCode (reply (Gateway.analyze env b post req))) own_statuses
   \/ exists f e up,
        file req = Some f
        /\ post (Gateway.outbound_call env b f req) = Rejected e
        /\ response e = Some up
        /\ statusCode (reply (Gateway.analyze env b post req)) = status up)
  /\ (In (statusCode (reply (ProxyServer.analyze env b post req))) own_statuses
      \/ exists f e up,
           file req = Some f
           /\ post (ProxyServer.outbound_call env b f req) = Rejected e
           /\ response e = Some up
           /\ statusCode (reply (ProxyServer.analyze env b post req)) = status up).
Proof.
  split.
  - unfold Gateway.analyze. destruct (file req) as [f|]; cbn [reply].
    + destruct (Gateway.thrown req) as [err|] eqn:Hth; cbn [reply].
      { left. rewrite (proj1 (thrown_status env req err Hth)). cbn. auto. }
      destruct (post (Gateway.outbound_call env b f req)) as [r|e] eqn:Hpost.
      * left. cbn. auto.
      * unfold Gateway.on_error. case_bool_decide; [left; cbn; auto|].
        destruct (response e) as [up|] eqn:Hup; [|left; cbn; auto].
        right. exists f, e, up. auto.
    + left. cbn. auto.
  - unfold ProxyServer.analyze. destruct (file req) as [f|]; cbn [reply].
    + destruct (ProxyServer.thrown req) as [err|] eqn:Hth; cbn [reply].
      { left. rewrite (proj2 (thrown_status env req err Hth)). cbn. auto. }
      destruct (post (ProxyServer.outbound_call env b f req)) as [r|e] eqn:Hpost.
      * left. cbn. auto.
      * unfold ProxyServer.on_error. case_bool_decide; [left; cbn; auto|].
        destruct (response e) as [up|] eqn:Hup; [|left; cbn; auto].
        right. exists f, e, up. auto.
    + left. cbn. auto.
Qed.

(** X3.  The [catch] block tests the timeout code before it looks for an
    upstream response: an error coded [ECONNABORTED] is answered 504 with the
    fixed timeout text even when it carries an upstream response, whose status
    and payload are then not relayed.  Both revisions. *)
Theorem timeout_code_wins_over_response env b post req f e :
  file req = Some f ->
  sendable req ->
  post (Gateway.outbound_call env b f req) = Rejected e ->
  code e = Some "ECONNABORTED" ->
  reply (Gateway.analyze env b post req)
  = {| statusCode := 504;
       payload := JsonBody (JObj [("error", JStr "Analysis timeout")]) |}
  /\ reply (ProxyServer.analyze env b post req)
     = {| statusCode := 504;
          payload :=
            JsonBody
              (JObj [("error",
                      JStr "Analysis timeout - the AI model took too long to respond")]) |}.
Proof.
  intros Hf Hsend Hpost Hcode. split.
  - rewrite (gateway_on_rejected env b post req f Hf Hsend e Hpost).
    apply gateway_on_error_timeout, Hcode.
  - rewrite (proxy_on_rejected env b post req f Hf Hsend e Hpost).
    apply proxy_on_error_timeout, Hcode.
Qed.

Lemma timeout_code_wins_over_response_witness :
  reply (Gateway.analyze sample_env "b" aborted_with_response (sample_request None))
  = {| statusCode := 504;
       payload := JsonBody (JObj [("error", JStr "Analysis timeout")]) |}.
Proof.
  apply (timeout_code_wins_over_response sample_env "b" aborted_with_response
           (sample_request None) sample_file
           {| code := Some "ECONNABORTED";
              response := Some {| status := 502; data := JStr "bad gateway" |};
              message := "aborted" |}).
  - reflexivity.
  - exact I.
  - reflexivity.
  - reflexivity.
Defined.

(** The [catch] block of the later revision never reads [error.message]; the
    first revision reads it only when NODE_ENV is 'development'. *)
Lemma gateway_on_error_ignores_message e e' :
  code e = code e' -> response e = response e' ->
  Gateway.on_error e = Gateway.on_error e'.
Proof. intros Hc Hr. unfold Gateway.on_error. rewrite Hc, Hr. reflexivity. Qed.

Lemma proxy_on_error_ignores_message env e e' :
  env !! "NODE_ENV" <> Some "development" ->
  code e = code e' -> response e = response e' ->
  ProxyServer.on_error env e = ProxyServer.on_error env e'.
Proof.
  intros Hdev Hc Hr. unfold ProxyServer.on_error, ProxyServer.dev_message.
  rewrite Hc, Hr. rewrite (bool_decide_eq_false_2 _ Hdev). reflexivity.
Qed.

(** X4.  The text of a caught error never reaches the client of the later
    revision, and reaches the client of the first revision only when NODE_ENV
    is 'development': two behaviours of the outbound call that differ at most
    in [error.message] give the same handler run. *)
Theorem error_message_is_not_exposed env b post post' req :
  (forall call, same_but_message (post call) (post' call)) ->
  Gateway.analyze env b post req = Gateway.analyze env b post' req
  /\ (env !! "NODE_ENV" <> Some "development" ->
      ProxyServer.analyze env b post req = ProxyServer.analyze env b post' req).
Proof.
  intros Hsame. split; [|intros Hdev].
  - unfold Gateway.analyze. destruct (file req) as [f|]; [|reflexivity].
    cbn zeta. specialize (Hsame (Gateway.outbound_call env b f req)).
    destruct (post _) as [r|e], (post' _) as [r'|e']; cbn in Hsame; try contradiction.
    + subst r'. reflexivity.
    + destruct Hsame as [Hc Hr].
      rewrite (gateway_on_error_ignores_message e e' Hc Hr). reflexivity.
  - unfold ProxyServer.analyze. destruct (file req) as [f|]; [|reflexivity].
    cbn zeta. specialize (Hsame (ProxyServer.outbound_call env b f req)).
    destruct (post _) as [r|e], (post' _) as [r'|e']; cbn in Hsame; try contradiction.
    + subst r'. reflexivity.
    + destruct Hsame as [Hc Hr].
      rewrite (proxy_on_error_ignores_message env e e' Hdev Hc Hr). reflexivity.
Qed.

Lemma error_message_is_not_exposed_witness :
  Gateway.analyze sample_env "b" (refused "connect ECONNREFUSED 10.0.0.5:443")
    (sample_request None)
  = Gateway.analyze sample_env "b" (refused "boom") (sample_request None).
Proof.
  apply (error_message_is_not_exposed sample_env "b"
           (refused "connect ECONNREFUSED 10.0.0.5:443") (refused "boom")
           (sample_request None)).
  intros call. cbn. split; reflexivity.
Defined.

(** X5.  The two revisions agree on every request and every behaviour of the
    outbound call: same outbound calls, same status.  Their replies are equal
    except in two cases: for an error coded [ECONNABORTED] both answer 504
    with different fixed texts; for an error with neither that code nor an
    upstream response (a transport failure, or [append] throwing) both answer
    500 with [error: 'Internal server error'], and the first revision's body
    has a further member [message], which holds [error.message] when NODE_ENV
    is 'development' and is undefined otherwise. *)
Theorem revisions_agree env b post req :
  outbound (ProxyServer.analyze env b post req)
  = outbound (Gateway.analyze env b post req)
  /\ statusCode (reply (ProxyServer.analyze env b post req))
     = statusCode (reply (Gateway.analyze env b post req))
  /\ (reply (ProxyServer.analyze env b post req)
      = reply (Gateway.analyze env b post req)
      \/ (reply (Gateway.analyze env b post req)
          = {| statusCode := 504;
               payload := JsonBody (JObj [("error", JStr "Analysis timeout")]) |}
          /\ reply (ProxyServer.analyze env b post req)
             = {| statusCode := 504;
                  payload :=
                    JsonBody
                      (JObj [("error",
                              JStr "Analysis timeout - the AI model took too long to respond")]) |})
      \/ (exists m,
           reply (Gateway.analyze env b post req)
           = {| statusCode := 500;
                payload := JsonBody (JObj [("error", JStr "Internal server error")]) |}
           /\ reply (ProxyServer.analyze env b post req)
              = {| statusCode := 500;
                   payload :=
                     JsonBody (JObj [("error", JStr "Internal server error");
                                     ("message", ProxyServer.dev_message env m)]) |})).
Proof.
  assert (Herr : forall e,
             statusCode (ProxyServer.on_error env e) = statusCode (Gateway.on_error e)
             /\ (ProxyServer.on_error env e = Gateway.on_error e
                 \/ (Gateway.on_error e
                     = {| statusCode := 504;
                          payload := JsonBody (JObj [("error", JStr "Analysis timeout")]) |}
                     /\ ProxyServer.on_error env e
                        = {| statusCode := 504;
                             payload :=
                               JsonBody
                                 (JObj [("error",
                                         JStr "Analysis timeout - the AI model took too long to respond")]) |})
                 \/ (Gateway.on_error e
                     = {| statusCode := 500;
                          payload :=
                            JsonBody (JObj [("error", JStr "Internal server error")]) |}
                     /\ ProxyServer.on_error env e
                        = {| statusCode := 500;
                             payload :=
                               JsonBody
                                 (JObj [("error", JStr "Internal server error");
                                        ("message",
                                         ProxyServer.dev_message env (message e))]) |}))).
  { intros e. unfold ProxyServer.on_error, Gateway.on_error.
    case_bool_decide; [split; [reflexivity|right; left; split; reflexivity]|].
    destruct (response e); [split; [reflexivity|left; reflexivity]|].
    split; [reflexivity|right; right; split; reflexivity]. }
  unfold ProxyServer.analyze, Gateway.analyze.
  destruct (file req) as [f|]; cbn [reply outbound]; [|auto].
  change (ProxyServer.thrown req) with (Gateway.thrown req).
  destruct (Gateway.thrown req) as [err|]; cbn [reply outbound].
  - split; [reflexivity|]. destruct (Herr err) as [Hst Hcase].
    split; [exact Hst|].
    destruct Hcase as [Heq|[Ht|Hi]]; [left; exact Heq | right; left; exact Ht|].
    right; right. exists (message err). exact Hi.
  - rewrite same_outbound_call. split; [reflexivity|].
    destruct (post (Gateway.outbound_call env b f req)) as [r|e]; [auto|].
    destruct (Herr e) as [Hst Hcase]. split; [exact Hst|].
    destruct Hcase as [Heq|[Ht|Hi]]; [left; exact Heq | right; left; exact Ht|].
    right; right. exists (message e). exact Hi.
Qed.

(** ** Client key, origins and the health route *)

Lemma or_else_nonempty a b : b <> "" -> or_else a b <> "".
Proof.
  intros Hb. unfold or_else, truthy. destruct a as [s|]; [|exact Hb].
  destruct (String.eqb_spec s ""); cbn [negb]; assumption.
Qed.

(** X6.  The key the limiter counts under is never the empty string: it is
    [req.ip] when that is a non-empty string, else the [x-forwarded-for]
    header when that is a non-empty string, else the literal 'unknown' (so
    all requests with neither share one counter).  Later revision. *)
Theorem rate_limit_key_is_never_empty req :
  Gateway.keyGenerator req <> ""
  /\ (ip req = Some (Gateway.keyGenerator req)
      \/ (truthy (ip req) = false
          /\ headers req !! "x-forwarded-for" = Some (Gateway.keyGenerator req))
      \/ (truthy (ip req) = false
          /\ truthy (headers req !! "x-forwarded-for") = false
          /\ Gateway.keyGenerator req = "unknown")).
Proof.
  split.
  - apply or_else_nonempty, or_else_nonempty. discriminate.
  - unfold Gateway.keyGenerator, or_else.
    destruct (ip req) as [i|].
    + destruct (truthy (Some i)) eqn:Hi; [left; reflexivity|right].
      destruct (headers req !! "x-forwarded-for") as [x|].
      * destruct (truthy (Some x)) eqn:Hx; [left|right]; auto.
      * right. auto.
    + right. destruct (headers req !! "x-forwarded-for") as [x|].
      * destruct (truthy (Some x)) eqn:Hx; [left|right]; auto.
      * right. auto.
Qed.

(** X7.  No setting of the environment revokes a built-in origin: an origin
    on the hard-coded list is granted whatever NODE_ENV and ALLOWED_ORIGINS
    are.  Later revision. *)
Theorem builtin_origins_cannot_be_revoked env o :
  In o Gateway.allowedOrigins ->
  Gateway.origin_callback env (Some o) = true.
Proof.
  intros Hin. unfold Gateway.origin_callback.
  destruct (negb (truthy (Some o))); [reflexivity|].
  apply orb_true_iff. left. apply includes_In, in_app_iff. left. exact Hin.
Qed.

Lemma builtin_origins_cannot_be_revoked_witness :
  Gateway.origin_callback two_origins (Some "https://proxy-twjq.onrender.com") = true.
Proof.
  apply (builtin_origins_cannot_be_revoked two_origins "https://proxy-twjq.onrender.com").
  vm_compute. tauto.
Defined.

(** X8.  A non-empty ALLOWED_ORIGINS is cut at every comma and nowhere else,
    with nothing trimmed or dropped: no entry contains a comma, and joining
    the entries with commas gives the variable back.  The first revision
    hands the very same entries to [cors]. *)
Theorem allowed_origins_variable_round_trip env s :
  env !! "ALLOWED_ORIGINS" = Some s ->
  s <> "" ->
  join ","%char (Gateway.envOrigins env) = s
  /\ (forall w, In w (Gateway.envOrigins env) -> mentions ","%char w = false)
  /\ ProxyServer.origin_option env = Cors.OriginList (Gateway.envOrigins env).
Proof.
  intros Hs Hne. unfold Gateway.envOrigins, ProxyServer.origin_option.
  rewrite Hs, (truthy_nonempty s Hne).
  split; [apply join_split|]. split; [|reflexivity].
  intros w Hw. exact (split_pieces_free _ _ _ Hw).
Qed.

Lemma allowed_origins_variable_round_trip_witness :
  join ","%char (Gateway.envOrigins two_origins)
  = "https://a.example,https://b.example".
Proof.
  apply (allowed_origins_variable_round_trip two_origins
           "https://a.example,https://b.example").
  - vm_compute. reflexivity.
  - discriminate.
Defined.

(** X9.  ALLOWED_ORIGINS set to the empty string: the first revision then
    hands [cors] the one-entry list [['']] and grants no request that carries
    a non-empty Origin (unset, it would answer every request with '*'); the
    later revision treats the empty value as unset and adds no origin. *)
Theorem empty_allowed_origins_variable env req o :
  env !! "ALLOWED_ORIGINS" = Some "" ->
  headers req !! "origin" = Some o ->
  o <> "" ->
  ProxyServer.origin_option env = Cors.OriginList [""]
  /\ ProxyServer.allow_origin_header env req = None
  /\ Gateway.envOrigins env = [].
Proof.
  intros He Ho Hne.
  unfold ProxyServer.allow_origin_header, ProxyServer.origin_option, Gateway.envOrigins.
  rewrite He, Ho. split; [reflexivity|]. split; [|reflexivity].
  cbn. destruct (String.eqb_spec o ""); [contradiction|reflexivity].
Qed.

Lemma empty_allowed_origins_variable_witness :
  ProxyServer.allow_origin_header empty_origins listed_origin_request = None.
Proof.
  apply (empty_allowed_origins_variable empty_origins listed_origin_request
           "https://chestexpertprime.vercel.app").
  - vm_compute. reflexivity.
  - vm_compute. reflexivity.
  - discriminate.
Defined.


(** ** The route as a whole *)

Section RunFacts.
Context {K : Type} `{Countable K}.
Variables (windowMs max : Z) (keyGenerator : Request -> K) (message : string).
Variables (cors_ok : Request -> bool) (on_cors_error : Response).
Variable handler : (OutboundCall -> Settled) -> Request -> Handled.

Local Abbreviation step :=
  (RateLimit.dispatch windowMs max keyGenerator message cors_ok on_cors_error handler).
Local Abbreviation run :=
  (RateLimit.serve windowMs max keyGenerator message cors_ok on_cors_error handler).

(** A request refused by the CORS check leaves no trace in the store. *)
Lemma refusals_drop_out arrivals :
  forall store,
    List.filter (fun e => negb (is_blocked e)) (run store arrivals)
    = run store (List.filter (fun a => cors_ok (RateLimit.request a)) arrivals).
Proof.
  induction arrivals as [|a rest IH]; intros store; [reflexivity|].
  rewrite serve_cons. cbn [List.filter]. unfold RateLimit.dispatch.
  destruct (cors_ok (RateLimit.request a)) eqn:Hcors.
  - rewrite serve_cons. unfold RateLimit.dispatch. rewrite Hcors.
    destruct (RateLimit.increment _ _ _ _) as [store' h].
    destruct (RateLimit.totalHits h <=? max); cbn; rewrite IH; reflexivity.
  - cbn. apply IH.
Qed.

(** What a client is answered depends on its own requests only. *)
Lemma clients_are_isolated key arrivals :
  forall st1 st2,
    st1 !! key = st2 !! key ->
    List.filter (fun e => bool_decide (keyGenerator (RateLimit.request e.1) = key))
      (run st1 arrivals)
    = run st2
        (List.filter (fun a => bool_decide (keyGenerator (RateLimit.request a) = key))
           arrivals).
Proof.
  induction arrivals as [|a rest IH]; intros st1 st2 Hst; [reflexivity|].
  rewrite serve_cons. cbn [List.filter fst].
  case_bool_decide as Hkey.
  - rewrite serve_cons.
    assert (Hsame : (step a st1).2 = (step a st2).2).
    { unfold RateLimit.dispatch, RateLimit.increment. rewrite Hkey, Hst.
      destruct (cors_ok (RateLimit.request a)); [|reflexivity].
      destruct (RateLimit.totalHits _ <=? max); reflexivity. }
    assert (Hnext : (step a st1).1 !! key = (step a st2).1 !! key).
    { unfold RateLimit.dispatch, RateLimit.increment. rewrite Hkey, Hst.
      destruct (cors_ok (RateLimit.request a)); [|exact Hst].
      destruct (RateLimit.totalHits _ <=? max); cbn [fst];
        rewrite !lookup_insert_eq; reflexivity. }
    rewrite Hsame, (IH _ _ Hnext). reflexivity.
  - apply IH. rewrite <- Hst.
    unfold RateLimit.dispatch, RateLimit.increment.
    destruct (cors_ok (RateLimit.request a)); [|reflexivity].
    destruct (RateLimit.totalHits _ <=? max); cbn [fst];
      rewrite lookup_insert_ne by exact Hkey; reflexivity.
Qed.

(** Once every window in the store is over, a request that passes the CORS
    check opens a new window and reaches the handler. *)
Lemma admitted_after_silence (T : Z) a arrivals :
  0 <= windowMs -> 1 <= max ->
  cors_ok (RateLimit.request a) = true ->
  T + windowMs <= RateLimit.at_time a ->
  forall store,
    (forall k h, store !! k = Some h -> RateLimit.resetTime h <= T + windowMs) ->
    Forall (fun a' => RateLimit.at_time a' <= T) arrivals ->
    last (run store (arrivals ++ [a]))
    = Some (a, {| RateLimit.stage :=
                    RateLimit.ReachedHandler
                      {| RateLimit.totalHits := 1;
                         RateLimit.resetTime := RateLimit.at_time a + windowMs |};
                  RateLimit.answer :=
                    reply (handler (RateLimit.upstream a) (RateLimit.request a));
                  RateLimit.calls :=
                    outbound (handler (RateLimit.upstream a) (RateLimit.request a)) |}).
Proof.
  intros Hw Hmax Hcors Hlate.
  induction arrivals as [|a0 rest IH]; intros store Hstore Hall.
  - cbn [app]. rewrite serve_cons. cbn [RateLimit.serve last].
    unfold RateLimit.dispatch, RateLimit.increment. rewrite Hcors.
    assert (Hopen :
        match store !! keyGenerator (RateLimit.request a) with
        | Some h =>
            if RateLimit.at_time a <? RateLimit.resetTime h
            then {| RateLimit.totalHits := RateLimit.totalHits h + 1;
                    RateLimit.resetTime := RateLimit.resetTime h |}
            else {| RateLimit.totalHits := 1;
                    RateLimit.resetTime := RateLimit.at_time a + windowMs |}
        | None => {| RateLimit.totalHits := 1;
                     RateLimit.resetTime := RateLimit.at_time a + windowMs |}
        end
        = {| RateLimit.totalHits := 1;
             RateLimit.resetTime := RateLimit.at_time a + windowMs |}).
    { destruct (store !! keyGenerator (RateLimit.request a)) as [h|] eqn:Hh;
        [|reflexivity].
      specialize (Hstore _ _ Hh).
      destruct (Z.ltb_spec (RateLimit.at_time a) (RateLimit.resetTime h));
        [lia|reflexivity]. }
    rewrite Hopen. cbn [RateLimit.totalHits].
    destruct (Z.leb_spec 1 max); [reflexivity|lia].
  - apply Forall_cons in Hall as [Ha0 Hall].
    rewrite <- app_comm_cons, serve_cons.
    assert (Hnext : forall k h,
               (step a0 store).1 !! k = Some h ->
               RateLimit.resetTime h <= T + windowMs).
    { intros k h. unfold RateLimit.dispatch, RateLimit.increment.
      destruct (cors_ok (RateLimit.request a0)); [|apply Hstore].
      destruct (RateLimit.totalHits _ <=? max); cbn [fst];
        (destruct (decide (keyGenerator (RateLimit.request a0) = k)) as [<-|Hne];
         [rewrite lookup_insert_eq; intros [= <-];
          destruct (store !! keyGenerator (RateLimit.request a0)) as [h0|] eqn:Hk;
          [destruct (RateLimit.at_time a0 <? RateLimit.resetTime h0);
           cbn [RateLimit.resetTime]; [exact (Hstore _ _ Hk)|lia]
          |cbn [RateLimit.resetTime]; lia]
         |rewrite lookup_insert_ne by exact Hne; apply Hstore]). }
    rewrite last_cons, (IH _ Hnext Hall). reflexivity.
Qed.

End RunFacts.

(** Multer hands a request on with a file exactly when its body is multipart
    with a single file part, under [image] and below the limit, and text
    parts that it accepts. *)
Lemma take_files_one fileSize files f :
  Multer.take_files "image" fileSize None files = inr (Some f)
  <-> files = [("image", f)] /\ size f < fileSize.
Proof.
  split.
  - destruct files as [|[field f0] rest]; cbn; [discriminate|].
    destruct (String.eqb_spec field "image") as [->|]; cbn [negb]; [|discriminate].
    destruct (Z.leb_spec fileSize (size f0)); [discriminate|].
    destruct rest as [|[field' f'] rest]; cbn.
    + intros [= <-]. auto.
    + destruct (negb (String.eqb field' "image")); discriminate.
  - intros [-> Hsize]. cbn.
    destruct (Z.leb_spec fileSize (size f)); [lia|reflexivity].
Qed.

Lemma single_with_file fileSize req parsed f :
  Multer.single "image" fileSize req = inr parsed /\ file parsed = Some f
  <-> exists fields,
        content req = Multipart [("image", f)] (inr fields)
        /\ size f < fileSize
        /\ parsed = parsed_as req f fields.
Proof.
  unfold Multer.single. split.
  - intros [Hs Hf]. destruct (content req) as [files fields|j] eqn:Hc.
    + destruct (Multer.take_files "image" fileSize None files) as [m|taken] eqn:Ht;
        [discriminate|].
      destruct fields as [m|fields]; [discriminate|].
      injection Hs as <-. cbn in Hf. subst taken.
      apply take_files_one in Ht as [-> Hsize].
      exists fields. unfold parsed_as. rewrite Hc. auto.
    + injection Hs as <-. discriminate.
  - intros (fields & Hc & Hsize & ->). rewrite Hc.
    rewrite (proj2 (take_files_one fileSize [("image", f)] f) (conj eq_refl Hsize)).
    unfold parsed_as. rewrite Hc. auto.
Qed.

(** The outbound calls of a route run, read off the arriving request. *)
Lemma gateway_route_calls env b post req :
  (exists f fields,
      forwardable req f fields
      /\ outbound (Gateway.route env b post req)
         = [Gateway.outbound_call env b f (parsed_as req f fields)])
  \/ ((forall f fields, ~ forwardable req f fields)
      /\ outbound (Gateway.route env b post req) = []).
Proof.
  unfold Gateway.route.
  destruct (Multer.single "image" Gateway.fileSize req) as [m|parsed] eqn:Hs.
  - right. split.
    + intros f fields (Hc & Hsize & _).
      assert (Hacc : Multer.single "image" Gateway.fileSize req
                     = inr (parsed_as req f fields)
                     /\ file (parsed_as req f fields) = Some f).
      { apply single_with_file. exists fields. auto. }
      destruct Hacc as [Hacc _]. congruence.
    + destruct (content req) as [? ?|[?|]]; reflexivity.
  - destruct (file parsed) as [f|] eqn:Hf.
    + destruct (proj1 (single_with_file Gateway.fileSize req parsed f) (conj Hs Hf))
        as (fields & Hc & Hsize & ->).
      rewrite Hc. unfold Gateway.analyze, Gateway.thrown. cbn [file parsed_as body].
      destruct (fields !! "context_json") as [[c|items|members]|] eqn:Hctx; cbn.
      * left. exists f, fields. split; [|reflexivity].
        split; [exact Hc|]. split; [exact Hsize|]. rewrite Hctx. exact I.
      * right. split; [|reflexivity].
        intros f' fields' (Hc' & _ & Hctx'). rewrite Hc in Hc'.
        injection Hc' as <- <-. rewrite Hctx in Hctx'. exact Hctx'.
      * right. split; [|reflexivity].
        intros f' fields' (Hc' & _ & Hctx'). rewrite Hc in Hc'.
        injection Hc' as <- <-. rewrite Hctx in Hctx'. exact Hctx'.
      * left. exists f, fields. split; [|reflexivity].
        split; [exact Hc|]. split; [exact Hsize|]. rewrite Hctx. exact I.
    + right. split.
      * intros f fields (Hc & Hsize & _).
        assert (Hacc : Multer.single "image" Gateway.fileSize req
                       = inr (parsed_as req f fields)
                       /\ file (parsed_as req f fields) = Some f).
        { apply single_with_file. exists fields. auto. }
        destruct Hacc as [Hacc _]. rewrite Hs in Hacc. injection Hacc as ->.
        discriminate.
      * unfold Gateway.analyze. rewrite Hf.
        destruct (content req) as [? ?|[?|]]; reflexivity.
Qed.

Lemma same_outbound env b post req :
  outbound (ProxyServer.analyze env b post req)
  = outbound (Gateway.analyze env b post req).
Proof.
  unfold ProxyServer.analyze, Gateway.analyze.
  destruct (file req); [|reflexivity].
  change (ProxyServer.thrown req) with (Gateway.thrown req).
  destruct (Gateway.thrown req); reflexivity.
Qed.

Lemma proxy_route_calls env b post req :
  outbound (ProxyServer.route env b post req)
  = outbound (Gateway.route env b post req).
Proof.
  unfold ProxyServer.route, Gateway.route.
  change ProxyServer.fileSize with Gateway.fileSize.
  destruct (Multer.single "image" Gateway.fileSize req) as [m|parsed] eqn:Hs.
  - destruct (content req) as [? ?|[?|]]; reflexivity.
  - rewrite same_outbound.
    destruct (content req) as [? ?|[?|]] eqn:Hc; try reflexivity.
    unfold Multer.single in Hs. rewrite Hc in Hs. injection Hs as <-. reflexivity.
Qed.

(** X11.  A request to [/analyze] causes a call of [axios.post] exactly when
    it passes the CORS check, is within the client's quota, has a multipart
    body with a single file part, under [image] and below 50 MiB, and text
    parts that multer accepts, and its [context_json] is absent or a string;
    it then causes exactly one call, however that call settles: nothing is
    retried.  Both revisions, which make the same call. *)
Theorem outbound_call_only_when_admitted_with_file
  (env : Env) (b : string) (a : RateLimit.Arrival)
  (store : gmap string RateLimit.Hits)
  (store' : gmap (option string) RateLimit.Hits) :
  ((exists h f fields,
       RateLimit.stage (Gateway.post_analyze env b a store).2 = RateLimit.ReachedHandler h
       /\ forwardable (RateLimit.request a) f fields
       /\ RateLimit.calls (Gateway.post_analyze env b a store).2
          = [Gateway.outbound_call env b f (parsed_as (RateLimit.request a) f fields)])
   \/ (((forall h, RateLimit.stage (Gateway.post_analyze env b a store).2
                   <> RateLimit.ReachedHandler h)
        \/ forall f fields, ~ forwardable (RateLimit.request a) f fields)
       /\ RateLimit.calls (Gateway.post_analyze env b a store).2 = []))
  /\ ((exists h f fields,
          RateLimit.stage (ProxyServer.post_analyze env b a store').2
          = RateLimit.ReachedHandler h
          /\ forwardable (RateLimit.request a) f fields
          /\ RateLimit.calls (ProxyServer.post_analyze env b a store').2
             = [Gateway.outbound_call env b f (parsed_as (RateLimit.request a) f fields)])
      \/ (((forall h, RateLimit.stage (ProxyServer.post_analyze env b a store').2
                      <> RateLimit.ReachedHandler h)
           \/ forall f fields, ~ forwardable (RateLimit.request a) f fields)
          /\ RateLimit.calls (ProxyServer.post_analyze env b a store').2 = [])).
Proof.
  split.
  - unfold Gateway.post_analyze, RateLimit.dispatch.
    destruct (Gateway.cors env (RateLimit.request a));
      [|right; split; [left; discriminate|reflexivity]].
    destruct (RateLimit.increment _ _ _ _) as [st h].
    destruct (RateLimit.totalHits h <=? Gateway.max);
      [|right; split; [left; discriminate|reflexivity]].
    cbn [snd RateLimit.stage RateLimit.calls].
    destruct (gateway_route_calls env b (RateLimit.upstream a) (RateLimit.request a))
      as [(f & fields & Hfw & Hcalls)|[Hno Hcalls]].
    + left. exists h, f, fields. auto.
    + right. auto.
  - unfold ProxyServer.post_analyze, RateLimit.dispatch.
    destruct (RateLimit.increment _ _ _ _) as [st h].
    destruct (RateLimit.totalHits h <=? ProxyServer.max);
      [|right; split; [left; discriminate|reflexivity]].
    cbn [snd RateLimit.stage RateLimit.calls]. rewrite proxy_route_calls.
    destruct (gateway_route_calls env b (RateLimit.upstream a) (RateLimit.request a))
      as [(f & fields & Hfw & Hcalls)|[Hno Hcalls]].
    + left. exists h, f, fields. auto.
    + right. auto.
Qed.

(** X12.  Requests refused by the CORS check use up no quota: the other
    requests of a run are answered as they would be had the refused ones
    never been sent.  Later revision, where [cors] is registered before the
    limiter. *)
Theorem cors_refusals_consume_no_quota env b store arrivals :
  List.filter (fun e => negb (is_blocked e)) (Gateway.serve env b store arrivals)
  = Gateway.serve env b store
      (List.filter (fun a => Gateway.cors env (RateLimit.request a)) arrivals).
Proof. apply refusals_drop_out. Qed.

(** X13.  The limiter counts a request before the handler looks at it: two
    requests arriving at the same instant with the same address and headers
    leave the same counters and get through or not alike, whether or not they
    carry a file and whatever the upstream does.  A request answered 400
    therefore uses up quota like any other.  Both revisions. *)
Theorem limiter_counts_before_the_handler
  (env : Env) (b : string) (a a' : RateLimit.Arrival)
  (store : gmap string RateLimit.Hits)
  (store' : gmap (option string) RateLimit.Hits) :
  RateLimit.at_time a = RateLimit.at_time a' ->
  ip (RateLimit.request a) = ip (RateLimit.request a') ->
  headers (RateLimit.request a) = headers (RateLimit.request a') ->
  ((Gateway.post_analyze env b a store).1 = (Gateway.post_analyze env b a' store).1
   /\ RateLimit.stage (Gateway.post_analyze env b a store).2
      = RateLimit.stage (Gateway.post_analyze env b a' store).2)
  /\ ((ProxyServer.post_analyze env b a store').1
      = (ProxyServer.post_analyze env b a' store').1
      /\ RateLimit.stage (ProxyServer.post_analyze env b a store').2
         = RateLimit.stage (ProxyServer.post_analyze env b a' store').2).
Proof.
  intros Ht Hip Hh. split.
  - unfold Gateway.post_analyze, RateLimit.dispatch, Gateway.cors, Gateway.keyGenerator.
    rewrite Ht, Hip, Hh.
    destruct (Gateway.origin_callback env _); [|auto].
    destruct (RateLimit.increment _ _ _ _) as [st h].
    destruct (RateLimit.totalHits h <=? Gateway.max); auto.
  - unfold ProxyServer.post_analyze, RateLimit.dispatch, ProxyServer.keyGenerator.
    rewrite Ht, Hip.
    destruct (RateLimit.increment _ _ _ _) as [st h].
    destruct (RateLimit.totalHits h <=? ProxyServer.max); auto.
Qed.

Lemma limiter_counts_before_the_handler_witness :
  (Gateway.post_analyze sample_env "b"
     (arrival 1000 (sample_request None) (Axios.Answers 850 200 JNull 4)) ∅).1
  = (Gateway.post_analyze sample_env "b" (arrival 1000 no_file_request Axios.Hangs) ∅).1.
Proof.
  apply (limiter_counts_before_the_handler sample_env "b"
           (arrival 1000 (sample_request None) (Axios.Answers 850 200 JNull 4))
           (arrival 1000 no_file_request Axios.Hangs) ∅ ∅).
  - reflexivity.
  - reflexivity.
  - reflexivity.
Defined.

(** X14.  The quota comes back with the window: after any run, a request
    arriving 15 minutes or more after every earlier one reaches the handler
    as hit number 1 of a new window, even if its client had been turned away
    before.  Both revisions (the later one for requests that pass the CORS
    check). *)
Theorem quota_is_restored_after_the_window
  (env : Env) (b : string) (arrivals : list RateLimit.Arrival)
  (a : RateLimit.Arrival) (T : Z) :
  Forall (fun a' => RateLimit.at_time a' <= T) arrivals ->
  T + 900000 <= RateLimit.at_time a ->
  (Gateway.cors env (RateLimit.request a) = true ->
   last (Gateway.serve env b ∅ (arrivals ++ [a]))
   = Some (a, {| RateLimit.stage :=
                   RateLimit.ReachedHandler
                     {| RateLimit.totalHits := 1;
                        RateLimit.resetTime := RateLimit.at_time a + 900000 |};
                 RateLimit.answer :=
                   reply (Gateway.route env b (RateLimit.upstream a)
                            (RateLimit.request a));
                 RateLimit.calls :=
                   outbound (Gateway.route env b (RateLimit.upstream a)
                               (RateLimit.request a)) |}))
  /\ last (ProxyServer.serve env b ∅ (arrivals ++ [a]))
     = Some (a, {| RateLimit.stage :=
                     RateLimit.ReachedHandler
                       {| RateLimit.totalHits := 1;
                          RateLimit.resetTime := RateLimit.at_time a + 900000 |};
                   RateLimit.answer :=
                     reply (ProxyServer.route env b (RateLimit.upstream a)
                              (RateLimit.request a));
                   RateLimit.calls :=
                     outbound (ProxyServer.route env b (RateLimit.upstream a)
                                 (RateLimit.request a)) |}).
Proof.
  intros Hall Hlate. split; [intros Hcors|].
  - apply (admitted_after_silence Gateway.windowMs Gateway.max Gateway.keyGenerator
             Gateway.message (Gateway.cors env) Gateway.error_middleware
             (Gateway.route env b) T a arrivals);
      [unfold Gateway.windowMs; lia | unfold Gateway.max; lia | exact Hcors
      | exact Hlate | | exact Hall].
    intros k h Hk. rewrite lookup_empty in Hk. discriminate.
  - apply (admitted_after_silence ProxyServer.windowMs ProxyServer.max
             ProxyServer.keyGenerator ProxyServer.message (fun _ => true)
             (ProxyServer.error_middleware env "") (ProxyServer.route env b)
             T a arrivals);
      [unfold ProxyServer.windowMs; lia | unfold ProxyServer.max; lia | reflexivity
      | exact Hlate | | exact Hall].
    intros k h Hk. rewrite lookup_empty in Hk. discriminate.
Qed.

Lemma quota_is_restored_after_the_window_witness :
  exists s,
    last (ProxyServer.serve sample_env "b" ∅ (burst ++ [late_arrival]))
    = Some (late_arrival, s)
    /\ RateLimit.stage s
       = RateLimit.ReachedHandler
           {| RateLimit.totalHits := 1; RateLimit.resetTime := 1801000 |}.
Proof.
  eexists. split.
  - apply (quota_is_restored_after_the_window sample_env "b" burst late_arrival 1000).
    + apply Forall_replicate. cbn. lia.
    + cbn. lia.
  - reflexivity.
Defined.

(** X15.  Clients do not affect each other: the answers a client gets in a
    run are those it would get if no other client had sent anything.  Both
    revisions, each with its own client key. *)
Theorem clients_do_not_affect_each_other
  (env : Env) (b : string) (key : string) (key' : option string)
  (arrivals : list RateLimit.Arrival) :
  List.filter
    (fun e => bool_decide (Gateway.keyGenerator (RateLimit.request e.1) = key))
    (Gateway.serve env b ∅ arrivals)
  = Gateway.serve env b ∅
      (List.filter
         (fun a => bool_decide (Gateway.keyGenerator (RateLimit.request a) = key))
         arrivals)
  /\ List.filter
       (fun e => bool_decide (ProxyServer.keyGenerator (RateLimit.request e.1) = key'))
       (ProxyServer.serve env b ∅ arrivals)
     = ProxyServer.serve env b ∅
         (List.filter
            (fun a => bool_decide (ProxyServer.keyGenerator (RateLimit.request a) = key'))
            arrivals).
Proof.
  split.
  - apply (clients_are_isolated Gateway.windowMs Gateway.max Gateway.keyGenerator
             Gateway.message (Gateway.cors env) Gateway.error_middleware
             (Gateway.route env b) key arrivals ∅ ∅ eq_refl).
  - apply (clients_are_isolated ProxyServer.windowMs ProxyServer.max
             ProxyServer.keyGenerator ProxyServer.message (fun _ => true)
             (ProxyServer.error_middleware env "") (ProxyServer.route env b)
             key' arrivals ∅ ∅ eq_refl).
Qed.
